(** * fdcanusb firmware: clock configuration and the cooperative main loop

    A shallow embedding of [fw/fdcanusb.cc]: the clock applier
    [SetupClock], the [ClockManager] class with its [UpdateConfig]
    method, the boot sequence of [main] and its two nested polling
    loops.

    Conventions.
    - The target is a 32-bit STM32G4: C [int] and [int32_t] are 32-bit
      two's complement, [uint32_t] is [unsigned int].  Both are carried
      by [Z] with the wrap-around written out ([Int.wrap], [UInt32.wrap]).
    - The STM32 HAL, mbed and mjlib are outside the repository.  HAL
      macros are kept symbolic (by name), HAL calls are recorded in a log
      together with the status the hardware answered, and the hardware
      itself is an arbitrary function from the history and the call to a
      status.  [mbed_die] never returns: the device is halted.
    - The millisecond timer is outside the file as well; [read_ms]
      returns a [uint32_t], modelled as the true time in milliseconds
      reduced modulo 2^32. *)

From Stdlib Require Import ZArith List String Bool Lia.
Import ListNotations.
Local Open Scope Z_scope.
Local Open Scope string_scope.
Local Open Scope list_scope.

(** ** Machine integers *)

Module Int.
(** C [int] / [int32_t]. *)
Definition min_signed : Z := - 2 ^ 31.
Definition max_signed : Z := 2 ^ 31 - 1.
Definition in_range (z : Z) : Prop := min_signed <= z <= max_signed.
Definition wrap (z : Z) : Z := (z + 2 ^ 31) mod 2 ^ 32 - 2 ^ 31.
Definition mul (a b : Z) : Z := wrap (a * b).
(** C division truncates towards zero. *)
Definition div (a b : Z) : Z := wrap (Z.quot a b).
End Int.

Module UInt32.
Definition modulus : Z := 2 ^ 32.
Definition wrap (z : Z) : Z := z mod modulus.
Definition sub (a b : Z) : Z := wrap (a - b).
(** Conversion of an [int] to [uint32_t]. *)
Definition of_int (z : Z) : Z := wrap z.
End UInt32.

(** ** The persisted record and the tier selection *)

(** [ClockManager::Config]. *)
Record Config := { can_hz : Z }.

(** The default member initialiser [int32_t can_hz = 85000000]. *)
Definition Config_default : Config := {| can_hz := 85000000 |}.

(** The lambda that initialises [can_clock_hz] in [UpdateConfig]. *)
Definition can_clock_hz (clock_ : Config) : Z :=
  if can_hz clock_ >=? 85000000 then 85000000
  else if can_hz clock_ >=? 80000000 then 80000000
  else if can_hz clock_ >=? 60000000 then 60000000
  else 85000000.

(** The argument [UpdateConfig] hands to [SetupClock]:
    [can_clock_hz * 2], an [int] multiplication. *)
Definition system_clock_hz (clock_ : Config) : Z :=
  Int.mul (can_clock_hz clock_) 2.

(** The pair the specification calls a ClockPlan: the local
    [can_clock_hz] and the value passed to [SetupClock]. *)
Record ClockPlan := { plan_selected : Z; plan_system : Z }.

Definition UpdateConfig_plan (clock_ : Config) : ClockPlan :=
  {| plan_selected := can_clock_hz clock_;
     plan_system := system_clock_hz clock_ |}.

(** ** HAL structures, with the macros kept by name *)

Definition macro := string.

Inductive HAL_StatusTypeDef := HAL_OK | HAL_ERROR | HAL_BUSY | HAL_TIMEOUT.

Definition is_ok (s : HAL_StatusTypeDef) : bool :=
  match s with HAL_OK => true | _ => false end.

(** [RCC_ClkInitTypeDef].  [ClockType] is an or of flags, kept as the
    list of flags.  The first use in [SetupClock] leaves the three
    dividers unset, hence the options. *)
Record RCC_ClkInitTypeDef := {
  ClockType : list macro;
  SYSCLKSource : macro;
  AHBCLKDivider : option macro;
  APB1CLKDivider : option macro;
  APB2CLKDivider : option macro
}.

Record RCC_PLLInitTypeDef := {
  PLLState : macro;
  PLLSource : macro;
  PLLM : macro;
  PLLN : Z;
  PLLP : macro;
  PLLQ : macro;
  PLLR : macro
}.

Record RCC_OscInitTypeDef := {
  OscillatorType : list macro;
  HSIState : macro;
  HSICalibrationValue : macro;
  HSI48State : macro;
  PLL : RCC_PLLInitTypeDef
}.

Record RCC_PeriphCLKInitTypeDef := {
  PeriphClockSelection : macro;
  FdcanClockSelection : macro
}.

Inductive hal_call :=
| HAL_RCC_ClockConfig (s : RCC_ClkInitTypeDef) (FLatency : macro)
| HAL_RCC_OscConfig (s : RCC_OscInitTypeDef)
| HAL_RCCEx_PeriphCLKConfig (s : RCC_PeriphCLKInitTypeDef).

(** What the device does, in program order. *)
Inductive event :=
| EvSetupClock (clock_rate_hz : Z)          (* entry of [SetupClock] *)
| EvEnable (m : macro)                      (* [__HAL_RCC_..._CLK_ENABLE()] *)
| EvHal (c : hal_call) (r : HAL_StatusTypeDef)
| EvDie                                     (* [mbed_die()] *)
| EvConstruct (object : string)             (* a constructor of [main] *)
| EvRegister (store key : string)           (* [store.Register(key, ...)] *)
| EvLoad                                    (* [persistent_config.Load()] *)
| EvCall (method : string).                 (* another external call *)

(** The callbacks handed to the configuration store, one constructor
    per lambda of the file. *)
Inductive callback :=
| ClockManager_lambda.                      (* [[this]() { this->UpdateConfig(); }] *)

(** The record pointers handed to the store, one constructor per
    registered record of the file. *)
Inductive record_ref :=
| Ref_clock_.                               (* [&clock_] *)

(** One registration of the store: key, record pointer, callback. *)
Definition element : Type := string * record_ref * callback.

(** ** The device monad: state, and halting *)

Record World := {
  log : list event;
  clock_ : Config;                          (* [ClockManager::clock_] *)
  elements : list element                   (* registrations of the store *)
}.

(** [None] is a device that was halted by [mbed_die]. *)
Definition Dev (A : Type) : Type := World -> World * option A.

Definition ret {A} (a : A) : Dev A := fun w => (w, Some a).

Definition bind {A B} (m : Dev A) (k : A -> Dev B) : Dev B :=
  fun w => match m w with
           | (w', Some a) => k a w'
           | (w', None) => (w', None)
           end.

Notation "x <- m ;; k" := (bind m (fun x => k))
  (at level 61, m at next level, right associativity).
Notation "m ;; k" := (bind m (fun _ => k))
  (at level 61, right associativity).

Definition emit (e : event) : Dev unit :=
  fun w => ({| log := log w ++ [e]; clock_ := clock_ w;
               elements := elements w |}, Some tt).

Definition mbed_die {A} : Dev A :=
  fun w => ({| log := log w ++ [EvDie]; clock_ := clock_ w;
               elements := elements w |}, None).

Definition get_clock_ : Dev Config := fun w => (w, Some (clock_ w)).

Definition get_elements : Dev (list element) :=
  fun w => (w, Some (elements w)).

(** Modelled from the spec: [micro::PersistentConfig::Register] of mjlib,
    which is not part of the file.  "Register(key, record*,
    on_change_callback)": the store keeps the registration. *)
Definition PersistentConfig_Register
    (key : string) (r : record_ref) (cb : callback) : Dev unit :=
  fun w => ({| log := log w ++ [EvRegister "persistent_config" key];
               clock_ := clock_ w;
               elements := elements w ++ [(key, r, cb)] |}, Some tt).

Definition set_clock_ (c : Config) : Dev unit :=
  fun w => ({| log := log w; clock_ := c; elements := elements w |}, Some tt).

Section Device.

(** The hardware: the status it answers to a HAL call, given everything
    that happened before. *)
Variable hal : list event -> hal_call -> HAL_StatusTypeDef.

Definition hal_do (c : hal_call) : Dev HAL_StatusTypeDef :=
  fun w => let r := hal (log w) c in
           ({| log := log w ++ [EvHal c r]; clock_ := clock_ w;
               elements := elements w |}, Some r).

(** [if (call != HAL_OK) { mbed_die(); }] *)
Definition check (c : hal_call) : Dev unit :=
  r <- hal_do c ;;
  if is_ok r then ret tt else mbed_die.

(** *** [SetupClock] *)

Definition ClkInit_HSI : RCC_ClkInitTypeDef :=
  {| ClockType := ["RCC_CLOCKTYPE_SYSCLK"];
     SYSCLKSource := "RCC_SYSCLKSOURCE_HSI";
     AHBCLKDivider := None;
     APB1CLKDivider := None;
     APB2CLKDivider := None |}.

Definition PLLN_of (clock_rate_hz : Z) : Z :=
  UInt32.of_int
    (Int.div (Int.mul (Int.div clock_rate_hz 1000000) 24) 48).

Definition OscInit (clock_rate_hz : Z) : RCC_OscInitTypeDef :=
  {| OscillatorType := ["RCC_OSCILLATORTYPE_HSI"; "RCC_OSCILLATORTYPE_HSI48"];
     HSIState := "RCC_HSI_ON";
     HSICalibrationValue := "RCC_HSICALIBRATION_DEFAULT";
     HSI48State := "RCC_HSI48_ON";
     PLL := {| PLLState := "RCC_PLL_ON";
               PLLSource := "RCC_PLLSOURCE_HSI";
               PLLM := "RCC_PLLM_DIV4";
               PLLN := PLLN_of clock_rate_hz;
               PLLP := "RCC_PLLP_DIV2";
               PLLQ := "RCC_PLLQ_DIV2";
               PLLR := "RCC_PLLR_DIV2" |} |}.

Definition ClkInit_PLL : RCC_ClkInitTypeDef :=
  {| ClockType := ["RCC_CLOCKTYPE_SYSCLK"; "RCC_CLOCKTYPE_HCLK";
                   "RCC_CLOCKTYPE_PCLK1"; "RCC_CLOCKTYPE_PCLK2"];
     SYSCLKSource := "RCC_SYSCLKSOURCE_PLLCLK";
     AHBCLKDivider := Some "RCC_SYSCLK_DIV1";
     APB1CLKDivider := Some "RCC_HCLK_DIV2";
     APB2CLKDivider := Some "RCC_HCLK_DIV2" |}.

Definition PeriphClkInit : RCC_PeriphCLKInitTypeDef :=
  {| PeriphClockSelection := "RCC_PERIPHCLK_FDCAN";
     FdcanClockSelection := "RCC_FDCANCLKSOURCE_PCLK1" |}.

(** The four HAL calls of [SetupClock], in program order. *)
Definition SetupClock_calls (clock_rate_hz : Z) : list hal_call :=
  [ HAL_RCC_ClockConfig ClkInit_HSI "FLASH_LATENCY_6";
    HAL_RCC_OscConfig (OscInit clock_rate_hz);
    HAL_RCC_ClockConfig ClkInit_PLL "FLASH_LATENCY_6";
    HAL_RCCEx_PeriphCLKConfig PeriphClkInit ].

Definition SetupClock (clock_rate_hz : Z) : Dev unit :=
  emit (EvSetupClock clock_rate_hz) ;;
  emit (EvEnable "__HAL_RCC_SYSCFG_CLK_ENABLE") ;;
  emit (EvEnable "__HAL_RCC_PWR_CLK_ENABLE") ;;
  (* Temporarily stop running off the PLL so we can change it. *)
  check (HAL_RCC_ClockConfig ClkInit_HSI "FLASH_LATENCY_6") ;;
  check (HAL_RCC_OscConfig (OscInit clock_rate_hz)) ;;
  check (HAL_RCC_ClockConfig ClkInit_PLL "FLASH_LATENCY_6") ;;
  check (HAL_RCCEx_PeriphCLKConfig PeriphClkInit).

(** *** [ClockManager] *)

Definition ClockManager_UpdateConfig : Dev unit :=
  c <- get_clock_ ;;
  SetupClock (Int.mul (can_clock_hz c) 2).

(** The constructor: the default member initialiser of [clock_], then
    the registration under the key ["clock"]. *)
Definition ClockManager_ctor : Dev unit :=
  set_clock_ Config_default ;;
  PersistentConfig_Register "clock" Ref_clock_ ClockManager_lambda.

(** *** The configuration store *)

Definition invoke (cb : callback) : Dev unit :=
  match cb with
  | ClockManager_lambda => ClockManager_UpdateConfig
  end.

Definition write_ref (r : record_ref) (c : Config) : Dev unit :=
  match r with
  | Ref_clock_ => set_clock_ c
  end.

Fixpoint restore_all (flash : string -> option Config) (l : list element)
  : Dev unit :=
  match l with
  | [] => ret tt
  | (key, r, _) :: l' =>
      match flash key with
      | Some c => write_ref r c
      | None => ret tt
      end ;;
      restore_all flash l'
  end.

Fixpoint invoke_all (l : list element) : Dev unit :=
  match l with
  | [] => ret tt
  | (_, _, cb) :: l' => invoke cb ;; invoke_all l'
  end.

(** Modelled from the spec: [micro::PersistentConfig::Load] of mjlib,
    which is not part of the file.  "Load() triggers the callback once at
    boot": the records found in flash are written through their record
    pointers, then every registered callback runs once, in registration
    order.  The content of the flash is the parameter [flash]. *)
Definition PersistentConfig_Load (flash : string -> option Config) : Dev unit :=
  emit EvLoad ;;
  l <- get_elements ;;
  restore_all flash l ;;
  invoke_all l.

(** Modelled from the spec: an external write to a persisted record
    (mjlib's configuration command, not part of the file).  "any later
    external write to the persisted record" stores the value through the
    record pointer and runs the callback registered with it. *)
Definition PersistentConfig_Write (key : string) (c : Config) : Dev unit :=
  l <- get_elements ;;
  match find (fun e : element => String.eqb (fst (fst e)) key) l with
  | Some (_, r, cb) => write_ref r c ;; invoke cb
  | None => ret tt
  end.

(** *** [main], up to the polling loop

    The constructors of the peripheral classes are outside the file;
    each is one event. *)
Definition main_constructed : list string :=
  [ "power_led"; "timer"; "pool"; "usb"; "uart"; "write_stream";
    "command_manager"; "telemetry_manager"; "flash_interface";
    "persistent_config"; "clock"; "can_manager"; "firmware_info";
    "git_info" ].

Definition main_boot (flash : string -> option Config) : Dev unit :=
  SetupClock 170000000 ;;
  emit (EvConstruct "power_led") ;;
  emit (EvConstruct "timer") ;;
  emit (EvConstruct "pool") ;;
  emit (EvConstruct "usb") ;;
  emit (EvConstruct "uart") ;;
  emit (EvConstruct "write_stream") ;;
  emit (EvConstruct "command_manager") ;;
  emit (EvConstruct "telemetry_manager") ;;
  emit (EvConstruct "flash_interface") ;;
  emit (EvConstruct "persistent_config") ;;
  emit (EvConstruct "clock") ;;
  ClockManager_ctor ;;
  emit (EvConstruct "can_manager") ;;
  emit (EvConstruct "firmware_info") ;;
  emit (EvConstruct "git_info") ;;
  emit (EvRegister "telemetry_manager" "git") ;;
  PersistentConfig_Load flash ;;
  emit (EvCall "command_manager.AsyncStart") ;;
  emit (EvCall "can_manager.Start").

End Device.

(** The state [main] starts from: nothing has happened, nothing is
    registered, and the storage of [clock_] holds whatever it holds. *)
Definition World_init (garbage : Config) : World :=
  {| log := []; clock_ := garbage; elements := [] |}.

(** ** The polling loop of [main] *)

Inductive pollable := uart | can_manager | usb.

Inductive sched_event :=
| ReadStart (v : Z)                    (* [start = timer.read_ms()] *)
| ReadNow (v : Z)                      (* [now = timer.read_ms()] and the test *)
| Poll (p : pollable)                  (* [p.Poll()] *)
| Poll10Ms (p : pollable).             (* [p.Poll10Ms()] *)

(** The statement about to run; [start] is the local of the outer loop. *)
Inductive pc :=
| OuterTop
| InnerTop (start : Z)
| AtPollUart (start : Z)
| AtPollCan (start : Z)
| AtPollUsb (start : Z)
| AtCan10Ms
| AtUsb10Ms.

(** [if (now - start > 10)], on [uint32_t]. *)
Definition elapsed_over (now start : Z) : bool :=
  UInt32.sub now start >? 10.

Section Scheduler.

(** The true time, in milliseconds, at which the [k]-th statement of
    the loop runs.  A [Poll] that blocks shows as a jump of [time]. *)
Variable time : nat -> Z.

Definition read_ms (k : nat) : Z := UInt32.wrap (time k).

(** The [k]-th statement: the event it contributes and where control
    goes next. *)
Definition step (k : nat) (l : pc) : sched_event * pc :=
  match l with
  | OuterTop =>
      let start := read_ms k in (ReadStart start, InnerTop start)
  | InnerTop start =>
      let now := read_ms k in
      (ReadNow now, if elapsed_over now start then AtCan10Ms
                    else AtPollUart start)
  | AtPollUart start => (Poll uart, AtPollCan start)
  | AtPollCan start => (Poll can_manager, AtPollUsb start)
  | AtPollUsb start => (Poll usb, InnerTop start)
  | AtCan10Ms => (Poll10Ms can_manager, AtUsb10Ms)
  | AtUsb10Ms => (Poll10Ms usb, OuterTop)
  end.

(** Where control is after [n] statements. *)
Fixpoint loc (n : nat) : pc :=
  match n with
  | O => OuterTop
  | S n' => snd (step n' (loc n'))
  end.

Definition event_at (k : nat) : sched_event := fst (step k (loc k)).

Definition trace (n : nat) : list sched_event := map event_at (seq 0 n).

(** The statement at which the outer cycle running at statement [n]
    read [start]. *)
Fixpoint cycle_start (n : nat) : nat :=
  match n with
  | O => O
  | S n' => match loc (S n') with
            | OuterTop => S n'
            | _ => cycle_start n'
            end
  end.

End Scheduler.

(** ** Vocabulary of the statements *)

(** The world after some more events. *)
Definition add_log (w : World) (evs : list event) : World :=
  {| log := log w ++ evs; clock_ := clock_ w; elements := elements w |}.

(** The HAL calls of a log, and the statuses they returned. *)
Definition hal_calls (l : list event) : list hal_call :=
  flat_map (fun e => match e with EvHal c _ => [c] | _ => [] end) l.

Definition hal_results (l : list event) : list HAL_StatusTypeDef :=
  flat_map (fun e => match e with EvHal _ r => [r] | _ => [] end) l.

(** The values [SetupClock] was entered with. *)
Definition setup_requests (l : list event) : list Z :=
  flat_map (fun e => match e with EvSetupClock hz => [hz] | _ => [] end) l.

Definition SetupClock_header (clock_rate_hz : Z) : list event :=
  [ EvSetupClock clock_rate_hz;
    EvEnable "__HAL_RCC_SYSCFG_CLK_ENABLE";
    EvEnable "__HAL_RCC_PWR_CLK_ENABLE" ].

Definition ok_events (cs : list hal_call) : list event :=
  map (fun c => EvHal c HAL_OK) cs.

(** Events of the clock hardware: what [SetupClock] adds behind its
    entry. *)
Definition hw_only (e : event) : bool :=
  match e with
  | EvEnable _ | EvHal _ _ | EvDie => true
  | _ => false
  end.

(** The world with another value in [clock_]. *)
Definition with_clock_ (w : World) (c : Config) : World :=
  {| log := log w; clock_ := c; elements := elements w |}.

(** What [main] has done when it reaches [persistent_config.Load()]. *)
Definition boot_prefix : list event :=
  SetupClock_header 170000000
  ++ ok_events (SetupClock_calls 170000000)
  ++ map EvConstruct
       [ "power_led"; "timer"; "pool"; "usb"; "uart"; "write_stream";
         "command_manager"; "telemetry_manager"; "flash_interface";
         "persistent_config"; "clock" ]
  ++ [ EvRegister "persistent_config" "clock" ]
  ++ map EvConstruct [ "can_manager"; "firmware_info"; "git_info" ]
  ++ [ EvRegister "telemetry_manager" "git" ].

(** The value of [start] while a cycle runs, if control is in the
    inner loop. *)
Definition start_of (l : pc) : option Z :=
  match l with
  | InnerTop st | AtPollUart st | AtPollCan st | AtPollUsb st => Some st
  | _ => None
  end.

Definition in_slow_path (l : pc) : bool :=
  match l with
  | AtCan10Ms | AtUsb10Ms => true
  | _ => false
  end.

(** A clock that never runs backwards. *)
Definition monotone (time : nat -> Z) : Prop :=
  forall i j : nat, (i <= j)%nat -> time i <= time j.

(** One millisecond per statement. *)
Definition steady : nat -> Z := fun k => Z.of_nat k.

(** The first [uart.Poll()] blocks: the statements up to it run at
    time 0, everything behind it at [2^32 * |D| + 11]. *)
Definition blocked_poll (D : Z) : nat -> Z :=
  fun k => if (k <? 3)%nat then 0 else 2 ^ 32 * Z.abs D + 11.

(** The 10 ms are over while the first pass is between [uart.Poll()]
    and [can_manager.Poll()]. *)
Definition crossed_mid_pass : nat -> Z :=
  fun k => if (k <? 3)%nat then 0 else 1000.

(** Hardware that accepts everything. *)
Definition hal_accepts : list event -> hal_call -> HAL_StatusTypeDef :=
  fun _ _ => HAL_OK.

(** Hardware that rejects the [n]-th HAL call it sees (from 0) with
    status [s], and accepts the others. *)
Definition hal_rejects (n : nat) (s : HAL_StatusTypeDef)
  : list event -> hal_call -> HAL_StatusTypeDef :=
  fun history _ =>
    if Nat.eqb (List.length (hal_calls history)) n then s else HAL_OK.

(** *** Vocabulary of the further properties *)

(** The three supported frequencies. *)
Definition tiers : list Z := [60000000; 80000000; 85000000].

(** Where the system clock runs from, as far as the accepted HAL calls
    tell. *)
Inductive sysclk := OnHSI | OnPLL.

Definition sysclk_after (src : sysclk) (e : event) : sysclk :=
  match e with
  | EvHal (HAL_RCC_ClockConfig s _) HAL_OK =>
      if String.eqb (SYSCLKSource s) "RCC_SYSCLKSOURCE_HSI" then OnHSI
      else if String.eqb (SYSCLKSource s) "RCC_SYSCLKSOURCE_PLLCLK" then OnPLL
      else src
  | _ => src
  end.

(** The oscillators and the PLL are programmed only while the system
    clock runs from the HSI; the clock of the CAN peripheral is selected
    only while it runs from the PLL. *)
Definition hal_allowed (src : sysclk) (e : event) : bool :=
  match e with
  | EvHal (HAL_RCC_OscConfig _) _ =>
      match src with OnHSI => true | OnPLL => false end
  | EvHal (HAL_RCCEx_PeriphCLKConfig _) _ =>
      match src with OnPLL => true | OnHSI => false end
  | _ => true
  end.

Fixpoint clock_tree_safe (src : sysclk) (l : list event) : bool :=
  match l with
  | [] => true
  | e :: l' => hal_allowed src e && clock_tree_safe (sysclk_after src e) l'
  end.

Definition sysclk_at_end (src : sysclk) (l : list event) : sysclk :=
  fold_left sysclk_after l src.

(** The persisted value [Load] leaves in [clock_]. *)
Definition persisted (flash : string -> option Config) : Config :=
  match flash "clock" with
  | Some c => c
  | None => Config_default
  end.

Definition pollable_eqb (p q : pollable) : bool :=
  match p, q with
  | uart, uart | can_manager, can_manager | usb, usb => true
  | _, _ => false
  end.

Definition is_poll (p : pollable) (e : sched_event) : bool :=
  match e with Poll q => pollable_eqb p q | _ => false end.

Definition is_poll10ms (p : pollable) (e : sched_event) : bool :=
  match e with Poll10Ms q => pollable_eqb p q | _ => false end.

Definition is_read_start (e : sched_event) : bool :=
  match e with ReadStart _ => true | _ => false end.

Definition is_read_now (e : sched_event) : bool :=
  match e with ReadNow _ => true | _ => false end.

(** How many of the first [n] statements of a run satisfy [f]. *)
Definition count (f : sched_event -> bool) (time : nat -> Z) (n : nat) : nat :=
  List.length (filter f (trace time n)).

(** ** The tier selection *)

Lemma can_clock_hz_cases (c : Config) :
  (85000000 <= can_hz c /\ can_clock_hz c = 85000000) \/
  (80000000 <= can_hz c < 85000000 /\ can_clock_hz c = 80000000) \/
  (60000000 <= can_hz c < 80000000 /\ can_clock_hz c = 60000000) \/
  (can_hz c < 60000000 /\ can_clock_hz c = 85000000).
Proof.
  unfold can_clock_hz.
  destruct (Z.geb_spec (can_hz c) 85000000); [left; lia|].
  destruct (Z.geb_spec (can_hz c) 80000000); [right; left; lia|].
  destruct (Z.geb_spec (can_hz c) 60000000); [right; right; left; lia|].
  right; right; right; lia.
Qed.

(** C1.  The selection returns one of the three tiers, for every input:
    85 MHz from 85 MHz up, 80 MHz from 80 MHz up, 60 MHz from 60 MHz up,
    and 85 MHz again below 60 MHz; with the three boundary values of the
    specification. *)
Theorem can_clock_hz_tiers :
  (forall f : Z,
     let s := can_clock_hz {| can_hz := f |} in
     (s = 60000000 \/ s = 80000000 \/ s = 85000000) /\
     (85000000 <= f -> s = 85000000) /\
     (80000000 <= f < 85000000 -> s = 80000000) /\
     (60000000 <= f < 80000000 -> s = 60000000) /\
     (f < 60000000 -> s = 85000000)) /\
  can_clock_hz {| can_hz := 84999999 |} = 80000000 /\
  can_clock_hz {| can_hz := 85000000 |} = 85000000 /\
  can_clock_hz {| can_hz := 59999999 |} = 85000000.
Proof.
  split; [|repeat split; reflexivity].
  intros f s.
  destruct (can_clock_hz_cases {| can_hz := f |}) as [H|[H|[H|H]]];
    simpl in H; subst s; destruct H as [Hf ->];
    repeat split; intros; try lia; auto.
Qed.

Lemma can_clock_hz_tiers_witness :
  can_clock_hz {| can_hz := 61000000 |} = 60000000.
Proof.
  apply (proj1 (proj2 (proj2 (proj2 (proj1 can_clock_hz_tiers 61000000))))).
  lia.
Defined.

Lemma system_clock_hz_double (c : Config) :
  system_clock_hz c = 2 * can_clock_hz c.
Proof.
  unfold system_clock_hz.
  destruct (can_clock_hz_cases c) as [H|[H|[H|H]]];
    destruct H as [_ ->]; reflexivity.
Qed.

(** ** The clock applier *)

Section DeviceFacts.

Variable hal : list event -> hal_call -> HAL_StatusTypeDef.

Lemma add_log_add_log w a b :
  add_log (add_log w a) b = add_log w (a ++ b).
Proof. unfold add_log; simpl. now rewrite <- app_assoc. Qed.

Lemma emit_eq e w : emit e w = (add_log w [e], Some tt).
Proof. reflexivity. Qed.

(** One guarded HAL call: it is accepted and control goes on, or it is
    rejected and the device halts right behind it. *)
Lemma check_cases c w :
  check hal c w = (add_log w [EvHal c HAL_OK], Some tt) \/
  exists s, s <> HAL_OK /\ hal (log w) c = s /\
            check hal c w = (add_log w [EvHal c s; EvDie], None).
Proof.
  unfold check, bind, hal_do.
  destruct (hal (log w) c) eqn:E; simpl;
    [left; reflexivity | right; eexists; (split; [|split; [reflexivity|]]) ..];
    try discriminate;
    unfold mbed_die, add_log; simpl; now rewrite <- app_assoc.
Qed.

(** The outcomes of [SetupClock]: the four calls are accepted, or the
    first rejected one is followed by the halt and by nothing else. *)
Lemma SetupClock_outcome hz w :
  SetupClock hal hz w =
    (add_log w (SetupClock_header hz ++ ok_events (SetupClock_calls hz)),
     Some tt) \/
  exists n c s,
    nth_error (SetupClock_calls hz) n = Some c /\ s <> HAL_OK /\
    (exists history, hal history c = s) /\
    SetupClock hal hz w =
      (add_log w (SetupClock_header hz
                  ++ ok_events (firstn n (SetupClock_calls hz))
                  ++ [EvHal c s; EvDie]), None).
Proof.
  remember (SetupClock hal hz w) as out eqn:Hout.
  unfold SetupClock in Hout.
  unfold bind at 1 in Hout. rewrite emit_eq in Hout.
  unfold bind at 1 in Hout. rewrite emit_eq, add_log_add_log in Hout.
  unfold bind at 1 in Hout. rewrite emit_eq, add_log_add_log in Hout.
  simpl app in Hout.
  unfold bind at 1 in Hout.
  match type of Hout with context [check hal ?c ?w] =>
    destruct (check_cases c w) as [E|(s & Hs & Hh & E)];
      rewrite E, add_log_add_log in Hout; clear E end.
  2:{ right. exists 0%nat. do 2 eexists.
      split; [reflexivity|]. split; [exact Hs|].
      split; [eexists; exact Hh | exact Hout]. }
  simpl app in Hout.
  unfold bind at 1 in Hout.
  match type of Hout with context [check hal ?c ?w] =>
    destruct (check_cases c w) as [E|(s & Hs & Hh & E)];
      rewrite E, add_log_add_log in Hout; clear E end.
  2:{ right. exists 1%nat. do 2 eexists.
      split; [reflexivity|]. split; [exact Hs|].
      split; [eexists; exact Hh | exact Hout]. }
  simpl app in Hout.
  unfold bind at 1 in Hout.
  match type of Hout with context [check hal ?c ?w] =>
    destruct (check_cases c w) as [E|(s & Hs & Hh & E)];
      rewrite E, add_log_add_log in Hout; clear E end.
  2:{ right. exists 2%nat. do 2 eexists.
      split; [reflexivity|]. split; [exact Hs|].
      split; [eexists; exact Hh | exact Hout]. }
  simpl app in Hout.
  match type of Hout with context [check hal ?c ?w] =>
    destruct (check_cases c w) as [E|(s & Hs & Hh & E)];
      rewrite E, add_log_add_log in Hout; clear E end.
  2:{ right. exists 3%nat. do 2 eexists.
      split; [reflexivity|]. split; [exact Hs|].
      split; [eexists; exact Hh | exact Hout]. }
  left. exact Hout.
Qed.

End DeviceFacts.

Lemma SetupClock_accepts hz w :
  snd (SetupClock hal_accepts hz w) = Some tt.
Proof.
  destruct (SetupClock_outcome hal_accepts hz w)
    as [E|(n & c & s & _ & Hs & (h & Hh) & _)]; [now rewrite E|].
  now elim Hs.
Qed.

(** C5.  Every one of the HAL calls of [SetupClock] is guarded: in every
    run the calls are issued in program order, each at most once, and
    either all four return [HAL_OK] and [SetupClock] returns, or the first
    call that does not return [HAL_OK] is followed by [mbed_die] and by
    nothing else.  Each of the four calls can be the one that halts the
    device. *)
Theorem SetupClock_all_ok_or_halt :
  (forall hal hz w,
     exists evs,
       log (fst (SetupClock hal hz w)) = log w ++ evs /\
       hal_calls evs
         = firstn (List.length (hal_calls evs)) (SetupClock_calls hz) /\
       ((snd (SetupClock hal hz w) = Some tt /\
         hal_results evs = [HAL_OK; HAL_OK; HAL_OK; HAL_OK] /\
         ~ In EvDie evs)
        \/
        (snd (SetupClock hal hz w) = None /\
         exists pre c s,
           evs = pre ++ [EvHal c s; EvDie] /\ s <> HAL_OK /\
           Forall (eq HAL_OK) (hal_results pre) /\ ~ In EvDie pre))) /\
  (forall hz garbage n s,
     (n < 4)%nat -> s <> HAL_OK ->
     let out := SetupClock (hal_rejects n s) hz (World_init garbage) in
     snd out = None /\
     hal_calls (log (fst out)) = firstn (S n) (SetupClock_calls hz) /\
     hal_results (log (fst out)) = repeat HAL_OK n ++ [s] /\
     last (log (fst out)) EvLoad = EvDie).
Proof.
  split.
  - intros hal hz w.
    destruct (SetupClock_outcome hal hz w) as [E|(n & c & s & Hn & Hs & Hh & E)];
      rewrite E; simpl fst; simpl snd; unfold add_log; simpl log;
      eexists; (split; [reflexivity|]).
    + split; [reflexivity|]. left.
      split; [reflexivity|]. split; [reflexivity|].
      simpl. intuition discriminate.
    + destruct n as [|[|[|[|n]]]]; cbn in Hn;
        [| | | | destruct n; discriminate];
        injection Hn as Hc; subst c;
        (split; [reflexivity|]); right; (split; [reflexivity|]);
        match goal with
        | |- context [ok_events ?l ++ [EvHal ?c s; EvDie]] =>
            exists (SetupClock_header hz ++ ok_events l); exists c; exists s
        end;
        (split; [reflexivity|]); (split; [exact Hs|]);
        (split; [simpl; repeat constructor | simpl; intuition discriminate]).
  - intros hz garbage n s Hn Hs out.
    destruct n as [|[|[|[|n]]]]; [| | | | lia];
      destruct s; try congruence; subst out; repeat split.
Qed.

Lemma SetupClock_all_ok_or_halt_witness :
  snd (SetupClock (hal_rejects 1 HAL_ERROR) 170000000
         (World_init Config_default)) = None.
Proof.
  destruct (proj2 SetupClock_all_ok_or_halt
              170000000 Config_default 1%nat HAL_ERROR) as [H _];
    [lia | discriminate | exact H].
Defined.

(** ** The update path of the clock manager *)

Section UpdateFacts.

Variable hal : list event -> hal_call -> HAL_StatusTypeDef.

Lemma hw_only_no_requests evs :
  forallb hw_only evs = true -> setup_requests evs = [].
Proof.
  induction evs as [|e evs IH]; simpl; [reflexivity|].
  intros H; apply andb_prop in H as [He Hevs].
  destruct e; try discriminate; simpl; auto.
Qed.

Lemma hw_only_no_load evs :
  forallb hw_only evs = true -> ~ In EvLoad evs.
Proof.
  intros H Hin. rewrite forallb_forall in H.
  apply H in Hin. discriminate.
Qed.

(** [SetupClock] logs its entry, then hardware events only; it touches
    neither [clock_] nor the registrations. *)
Lemma SetupClock_frame hz w :
  exists evs,
    fst (SetupClock hal hz w) = add_log w (EvSetupClock hz :: evs) /\
    forallb hw_only evs = true /\
    (snd (SetupClock hal hz w) = Some tt ->
     hal_calls evs = SetupClock_calls hz).
Proof.
  destruct (SetupClock_outcome hal hz w) as [E|(n & c & s & Hn & Hs & Hh & E)];
    rewrite E; simpl fst; simpl snd.
  - eexists; split; [reflexivity|]. split; reflexivity.
  - destruct n as [|[|[|[|n]]]]; cbn in Hn;
      [| | | | destruct n; discriminate];
      injection Hn as Hc; subst c;
      (eexists; split; [reflexivity|]; split; [reflexivity|discriminate]).
Qed.

Lemma UpdateConfig_eq w :
  ClockManager_UpdateConfig hal w
  = SetupClock hal (system_clock_hz (clock_ w)) w.
Proof. reflexivity. Qed.

End UpdateFacts.

(** C2.  The value the update path hands to [SetupClock] is exactly twice
    the selected frequency, no overflow of [int] included, and it is the
    request that reaches the applier; with the three end-to-end values of
    the specification. *)
Theorem UpdateConfig_system_twice_selected :
  (forall hal w,
     let p := UpdateConfig_plan (clock_ w) in
     plan_system p = 2 * plan_selected p /\
     exists evs,
       log (fst (ClockManager_UpdateConfig hal w))
         = log w ++ EvSetupClock (2 * plan_selected p) :: evs /\
       setup_requests evs = []) /\
  UpdateConfig_plan {| can_hz := 85000000 |}
    = {| plan_selected := 85000000; plan_system := 170000000 |} /\
  UpdateConfig_plan {| can_hz := 61000000 |}
    = {| plan_selected := 60000000; plan_system := 120000000 |} /\
  UpdateConfig_plan {| can_hz := 0 |}
    = {| plan_selected := 85000000; plan_system := 170000000 |}.
Proof.
  split; [|repeat split; reflexivity].
  intros hal w p. subst p. simpl plan_system. simpl plan_selected.
  split; [apply system_clock_hz_double|].
  rewrite UpdateConfig_eq, system_clock_hz_double.
  destruct (SetupClock_frame hal (2 * can_clock_hz (clock_ w)) w)
    as (evs & E & Hhw & _).
  exists evs. rewrite E. split; [reflexivity|].
  now apply hw_only_no_requests.
Qed.

(** C7.  An update reads [clock_] and does not write it, so a second
    update with the persisted value unchanged computes the same plan and
    requests the same frequency from the applier; when both updates run
    to the end they program the hardware with the same four calls. *)
Theorem UpdateConfig_twice_same_plan :
  forall hal w,
    let out1 := ClockManager_UpdateConfig hal w in
    let out2 := ClockManager_UpdateConfig hal (fst out1) in
    clock_ (fst out1) = clock_ w /\
    UpdateConfig_plan (clock_ (fst out1)) = UpdateConfig_plan (clock_ w) /\
    (snd out1 = Some tt ->
     exists evs1 evs2,
       log (fst out1) = log w ++ evs1 /\
       log (fst out2) = log (fst out1) ++ evs2 /\
       setup_requests evs1 = [plan_system (UpdateConfig_plan (clock_ w))] /\
       setup_requests evs2 = setup_requests evs1 /\
       (snd out2 = Some tt -> hal_calls evs2 = hal_calls evs1)).
Proof.
  intros hal w out1 out2.
  assert (Hc : clock_ (fst out1) = clock_ w).
  { subst out1. rewrite UpdateConfig_eq.
    destruct (SetupClock_frame hal (system_clock_hz (clock_ w)) w)
      as (evs & E & _). now rewrite E. }
  split; [exact Hc|]. split; [now rewrite Hc|].
  intros Hok. subst out2. rewrite UpdateConfig_eq, Hc.
  subst out1. rewrite UpdateConfig_eq in *.
  destruct (SetupClock_frame hal (system_clock_hz (clock_ w)) w)
    as (evs1 & E1 & Hhw1 & Hcalls1).
  destruct (SetupClock_frame hal (system_clock_hz (clock_ w))
              (fst (SetupClock hal (system_clock_hz (clock_ w)) w)))
    as (evs2 & E2 & Hhw2 & Hcalls2).
  exists (EvSetupClock (system_clock_hz (clock_ w)) :: evs1).
  exists (EvSetupClock (system_clock_hz (clock_ w)) :: evs2).
  rewrite E2, E1. simpl log.
  split; [reflexivity|]. split; [reflexivity|].
  simpl setup_requests.
  rewrite (hw_only_no_requests _ Hhw1), (hw_only_no_requests _ Hhw2).
  split; [reflexivity|]. split; [reflexivity|].
  intros Hok2. simpl. rewrite Hcalls1 by exact Hok.
  apply Hcalls2. rewrite E1. exact Hok2.
Qed.

Lemma UpdateConfig_twice_same_plan_witness :
  exists evs1 evs2,
    log (fst (ClockManager_UpdateConfig hal_accepts
                (World_init {| can_hz := 61000000 |})))
      = log (World_init {| can_hz := 61000000 |}) ++ evs1 /\
    log (fst (ClockManager_UpdateConfig hal_accepts
                (fst (ClockManager_UpdateConfig hal_accepts
                        (World_init {| can_hz := 61000000 |})))))
      = log (fst (ClockManager_UpdateConfig hal_accepts
                    (World_init {| can_hz := 61000000 |}))) ++ evs2 /\
    setup_requests evs1
      = [plan_system (UpdateConfig_plan
                        (clock_ (World_init {| can_hz := 61000000 |})))] /\
    setup_requests evs2 = setup_requests evs1 /\
    (snd (ClockManager_UpdateConfig hal_accepts
            (fst (ClockManager_UpdateConfig hal_accepts
                    (World_init {| can_hz := 61000000 |})))) = Some tt ->
     hal_calls evs2 = hal_calls evs1).
Proof.
  apply (proj2 (proj2 (UpdateConfig_twice_same_plan hal_accepts
                         (World_init {| can_hz := 61000000 |})))).
  reflexivity.
Defined.

(** ** Registration with the configuration store *)

Lemma bind_ret_unit (m : Dev unit) w : (m ;; ret tt) w = m w.
Proof.
  unfold bind, ret. destruct (m w) as [w' [[]|]]; reflexivity.
Qed.

(** C6.  The constructor sets [clock_] to its default, 85,000,000 (an
    [int32_t] value), and registers it under the key ["clock"] with the
    callback that runs [UpdateConfig].  With that registration in the
    store, [Load] and a write to the record both end in the same
    [UpdateConfig], on the value they stored; and [UpdateConfig] is the
    selection followed by [SetupClock] on twice the selected value. *)
Theorem ClockManager_registers_update :
  (forall w,
     ClockManager_ctor w =
       ({| log := log w ++ [EvRegister "persistent_config" "clock"];
           clock_ := {| can_hz := 85000000 |};
           elements := elements w
                       ++ [("clock", Ref_clock_, ClockManager_lambda)] |},
        Some tt)) /\
  Int.in_range (can_hz Config_default) /\
  (forall hal flash w,
     elements w = [] ->
     let w1 := fst (ClockManager_ctor w) in
     PersistentConfig_Load hal flash w1 =
       ClockManager_UpdateConfig hal
         (with_clock_ (add_log w1 [EvLoad])
            (match flash "clock" with
             | Some c => c
             | None => Config_default
             end))) /\
  (forall hal c w,
     elements w = [] ->
     let w1 := fst (ClockManager_ctor w) in
     PersistentConfig_Write hal "clock" c w1 =
       ClockManager_UpdateConfig hal (with_clock_ w1 c)) /\
  (forall hal w,
     invoke hal ClockManager_lambda w = ClockManager_UpdateConfig hal w /\
     ClockManager_UpdateConfig hal w =
       SetupClock hal (2 * can_clock_hz (clock_ w)) w).
Proof.
  split; [reflexivity|].
  split; [unfold Int.in_range, Int.min_signed, Int.max_signed; simpl; lia|].
  split; [|split].
  - intros hal flash w Hel w1. subst w1.
    unfold PersistentConfig_Load, ClockManager_ctor.
    unfold bind at 1. rewrite emit_eq.
    unfold bind at 1. unfold get_elements at 1.
    cbn [fst snd bind set_clock_ PersistentConfig_Register elements add_log
         log clock_].
    rewrite Hel. cbn [app restore_all invoke_all].
    unfold bind at 1.
    rewrite bind_ret_unit.
    destruct (flash "clock") as [c|]; cbn [write_ref set_clock_ ret];
      cbn [log clock_ elements]; rewrite bind_ret_unit; reflexivity.
  - intros hal c w Hel w1. subst w1.
    unfold PersistentConfig_Write, ClockManager_ctor.
    unfold bind at 1. unfold get_elements at 1.
    cbn [fst snd bind set_clock_ PersistentConfig_Register elements add_log
         log clock_].
    rewrite Hel. cbn [app find fst snd String.eqb Ascii.eqb Bool.eqb].
    reflexivity.
  - intros hal w. split; [reflexivity|].
    rewrite UpdateConfig_eq. now rewrite system_clock_hz_double.
Qed.

Lemma ClockManager_registers_update_witness :
  PersistentConfig_Load hal_accepts
    (fun key => if String.eqb key "clock"
                then Some {| can_hz := 61000000 |} else None)
    (fst (ClockManager_ctor (World_init {| can_hz := 0 |})))
  = ClockManager_UpdateConfig hal_accepts
      (with_clock_
         (add_log (fst (ClockManager_ctor (World_init {| can_hz := 0 |})))
            [EvLoad])
         {| can_hz := 61000000 |}).
Proof.
  apply (proj1 (proj2 (proj2 ClockManager_registers_update))
           hal_accepts
           (fun key => if String.eqb key "clock"
                       then Some {| can_hz := 61000000 |} else None)
           (World_init {| can_hz := 0 |})).
  reflexivity.
Defined.

(** ** The boot sequence *)

Lemma split_at_unique {A} (x : A) (l1 l2 pre post : list A) :
  ~ In x l1 -> ~ In x l2 ->
  pre ++ x :: post = l1 ++ x :: l2 ->
  pre = l1 /\ post = l2.
Proof.
  revert pre. induction l1 as [|a l1 IH]; intros pre H1 H2 E.
  - destruct pre as [|b pre]; simpl in E.
    + injection E as E. now split.
    + injection E as Eb E. exfalso. apply H2. rewrite <- E.
      apply in_or_app. right. now left.
  - destruct pre as [|b pre]; simpl in E.
    + injection E as Ea E. exfalso. apply H1. now left.
    + injection E as Eb E. subst b.
      destruct (IH pre) as [-> ->]; auto.
      intros Hin. apply H1. now right.
Qed.

Section BootFacts.

Variable hal : list event -> hal_call -> HAL_StatusTypeDef.
Variable flash : string -> option Config.
Variable garbage : Config.

(** The log of the boot sequence: the device halted inside the first
    [SetupClock], or [main] reached [Load] behind [boot_prefix], [Load]
    ran the update on the persisted value, and the two start calls
    followed unless that update halted the device. *)
Lemma main_boot_log :
  (snd (SetupClock hal 170000000 (World_init garbage)) = None /\
   exists evs,
     log (fst (main_boot hal flash (World_init garbage)))
       = EvSetupClock 170000000 :: evs /\
     forallb hw_only evs = true)
  \/
  (exists evs rest,
     log (fst (main_boot hal flash (World_init garbage)))
       = boot_prefix
         ++ EvLoad
            :: EvSetupClock
                 (system_clock_hz
                    (match flash "clock" with
                     | Some c => c
                     | None => Config_default
                     end))
            :: evs ++ rest /\
     forallb hw_only evs = true /\
     (rest = [] \/
      rest = [EvCall "command_manager.AsyncStart";
              EvCall "can_manager.Start"])).
Proof.
  remember (main_boot hal flash (World_init garbage)) as out eqn:Hout.
  unfold main_boot in Hout. unfold bind at 1 in Hout.
  destruct (SetupClock_outcome hal 170000000 (World_init garbage))
    as [E|(n & c & s & Hn & Hs & Hh & E)]; rewrite E in Hout.
  2:{ left. subst out. split; [now rewrite E|].
      destruct n as [|[|[|[|n]]]]; cbn in Hn;
        [| | | | destruct n; discriminate];
        injection Hn as Hc; subst c;
        (eexists; split; reflexivity). }
  right.
  assert (HW : exists W,
            log W = boot_prefix ++ [EvLoad] /\
            clock_ W = match flash "clock" with
                       | Some c => c
                       | None => Config_default
                       end /\
            out = match ClockManager_UpdateConfig hal W with
                  | (w', Some _) =>
                      (add_log
                         (add_log w' [EvCall "command_manager.AsyncStart"])
                         [EvCall "can_manager.Start"], Some tt)
                  | (w', None) => (w', None)
                  end).
  { destruct (flash "clock") as [c0|] eqn:Hf;
      cbv - [ClockManager_UpdateConfig] in Hout;
      rewrite Hf in Hout; cbv beta iota in Hout;
      match type of Hout with
      | context [ClockManager_UpdateConfig hal ?w] => exists w
      end; (split; [reflexivity|]); (split; [reflexivity|]); rewrite Hout;
      destruct (ClockManager_UpdateConfig hal _) as [w' [[]|]];
      reflexivity. }
  clear Hout. destruct HW as (W & HW & HC & Hout).
  assert (E2 : exists evs,
            log (fst (ClockManager_UpdateConfig hal W))
              = log W ++ EvSetupClock (system_clock_hz (clock_ W)) :: evs /\
            forallb hw_only evs = true).
  { rewrite UpdateConfig_eq.
    destruct (SetupClock_frame hal (system_clock_hz (clock_ W)) W)
      as (evs & Ef & Hhw & _).
    exists evs. rewrite Ef. now split. }
  destruct E2 as (evs & Ef & Hhw).
  rewrite HW, HC in Ef. exists evs.
  destruct (ClockManager_UpdateConfig hal W) as [w' [[]|]];
    simpl in Ef; subst out; simpl fst; simpl log; rewrite Ef.
  - exists [EvCall "command_manager.AsyncStart"; EvCall "can_manager.Start"].
    split; [|split; [exact Hhw | now right]].
    rewrite <- ?app_assoc. reflexivity.
  - exists []. split; [|split; [exact Hhw | now left]].
    rewrite <- ?app_assoc, app_nil_r. reflexivity.
Qed.

End BootFacts.

(** C9.  The first thing [main] does is [SetupClock(170000000)].  Whenever
    [persistent_config.Load()] is reached, everything before it is that one
    [SetupClock], with its four HAL calls accepted, and the construction
    of every object of [main]; the update of the clock manager and the
    two start calls come behind it, and no constructor does.  With
    hardware that accepts the calls, [Load] is reached. *)
Theorem boot_default_clock_before_Load :
  (forall hal flash garbage,
     let l := log (fst (main_boot hal flash (World_init garbage))) in
     (exists rest, l = EvSetupClock 170000000 :: rest) /\
     (forall pre post,
        l = pre ++ EvLoad :: post ->
        (exists pre', pre = EvSetupClock 170000000 :: pre') /\
        setup_requests pre = [170000000] /\
        hal_calls pre = SetupClock_calls 170000000 /\
        hal_results pre = [HAL_OK; HAL_OK; HAL_OK; HAL_OK] /\
        (forall o, In o main_constructed -> In (EvConstruct o) pre) /\
        ~ In EvLoad pre /\ ~ In EvLoad post /\
        (forall o, ~ In (EvConstruct o) post) /\
        (exists post',
           post = EvSetupClock
                    (system_clock_hz
                       (match flash "clock" with
                        | Some c => c
                        | None => Config_default
                        end)) :: post'))) /\
  (forall flash garbage,
     In EvLoad (log (fst (main_boot hal_accepts flash (World_init garbage))))).
Proof.
  split.
  - intros hal flash garbage l. subst l.
    destruct (main_boot_log hal flash garbage)
      as [(_ & evs & E & Hhw)|(evs & rest & E & Hhw & Hrest)]; rewrite E.
    + split; [eexists; reflexivity|].
      intros pre post Hsplit. exfalso.
      assert (Hin : In EvLoad (EvSetupClock 170000000 :: evs)).
      { rewrite Hsplit. apply in_or_app. right. now left. }
      destruct Hin as [Hin|Hin]; [discriminate|].
      now apply (hw_only_no_load evs Hhw).
    + split; [eexists; reflexivity|].
      intros pre post Hsplit. symmetry in Hsplit.
      assert (Htail : forall e,
                In e (EvSetupClock
                        (system_clock_hz
                           (match flash "clock" with
                            | Some c => c
                            | None => Config_default
                            end)) :: evs ++ rest) ->
                e <> EvLoad /\ forall o, e <> EvConstruct o).
      { intros e [<-|Hin]; [split; [|intros o]; discriminate|].
        apply in_app_or in Hin as [Hin|Hin].
        - rewrite forallb_forall in Hhw. apply Hhw in Hin.
          split; [|intros o]; intros ->; discriminate.
        - destruct Hrest as [->| ->]; simpl in Hin;
            [contradiction|].
          destruct Hin as [<-|[<-|[]]]; (split; [|intros o]; discriminate). }
      apply split_at_unique in Hsplit as [-> ->].
      * split; [eexists; reflexivity|].
        split; [reflexivity|]. split; [reflexivity|]. split; [reflexivity|].
        split.
        { intros o Ho. unfold main_constructed in Ho. simpl in Ho.
          repeat (destruct Ho as [<-|Ho];
                  [vm_compute; repeat (first [left; reflexivity | right])|]).
          contradiction. }
        split; [vm_compute; intuition discriminate|].
        split; [intros Hin; now apply (Htail _ Hin)|].
        split; [intros o Hin; now apply (proj2 (Htail _ Hin) o)|].
        eexists; reflexivity.
      * vm_compute; intuition discriminate.
      * intros Hin. now apply (Htail _ Hin).
  - intros flash garbage.
    destruct (main_boot_log hal_accepts flash garbage)
      as [(Hnone & _)|(evs & rest & E & _)].
    + rewrite SetupClock_accepts in Hnone. discriminate Hnone.
    + rewrite E. apply in_or_app. right. now left.
Qed.

Lemma boot_default_clock_before_Load_witness :
  setup_requests boot_prefix = [170000000].
Proof.
  apply (proj1 (proj2 (proj2 (proj1 boot_default_clock_before_Load
                                hal_accepts (fun _ => None) Config_default)
                         boot_prefix
                         (SetupClock_header 170000000
                          ++ ok_events (SetupClock_calls 170000000)
                          ++ [EvCall "command_manager.AsyncStart";
                              EvCall "can_manager.Start"])
                         eq_refl))).
Defined.

(** ** The polling loop *)

Lemma UInt32_sub_wrap a b :
  UInt32.sub (UInt32.wrap a) (UInt32.wrap b) = (a - b) mod 2 ^ 32.
Proof.
  unfold UInt32.sub, UInt32.wrap, UInt32.modulus.
  now rewrite <- Zminus_mod.
Qed.

(** The test never fires early. *)
Lemma elapsed_over_sound start_time now_time :
  start_time <= now_time ->
  elapsed_over (UInt32.wrap now_time) (UInt32.wrap start_time) = true ->
  now_time - start_time > 10.
Proof.
  intros Hle H. unfold elapsed_over in H. rewrite UInt32_sub_wrap in H.
  destruct (Z_lt_le_dec (now_time - start_time) (2 ^ 32)) as [Hlt|Hge]; [|lia].
  rewrite Z.mod_small in H by lia. lia.
Qed.

(** C8.  The elapsed time is the difference of the two readings modulo
    2^32.  For a start and a later reading less than 2^32 ms apart it is
    the true elapsed time, whatever number of wrap-arounds of the counter
    lie before or between them, so the comparison with 10 is the one on
    true times; and the test never fires unless more than 10 ms have
    really passed. *)
Theorem elapsed_tolerates_wraparound :
  (forall start_time now_time : Z,
     start_time <= now_time ->
     now_time - start_time < 2 ^ 32 ->
     UInt32.sub (UInt32.wrap now_time) (UInt32.wrap start_time)
       = now_time - start_time /\
     elapsed_over (UInt32.wrap now_time) (UInt32.wrap start_time)
       = (now_time - start_time >? 10)) /\
  (forall start_time now_time : Z,
     start_time <= now_time ->
     elapsed_over (UInt32.wrap now_time) (UInt32.wrap start_time) = true ->
     now_time - start_time > 10) /\
  UInt32.wrap (2 ^ 32 + 5) = 5 /\
  elapsed_over (UInt32.wrap (2 ^ 32 + 5)) (UInt32.wrap (2 ^ 32 - 5)) = false /\
  elapsed_over (UInt32.wrap (2 ^ 32 + 6)) (UInt32.wrap (2 ^ 32 - 5)) = true.
Proof.
  split; [|split; [|repeat split; reflexivity]].
  - intros s n Hle Hlt. unfold elapsed_over. rewrite UInt32_sub_wrap.
    rewrite Z.mod_small by lia. now split.
  - apply elapsed_over_sound.
Qed.

Lemma elapsed_tolerates_wraparound_witness :
  elapsed_over (UInt32.wrap (3 * 2 ^ 32 + 4)) (UInt32.wrap (3 * 2 ^ 32 - 7))
  = (3 * 2 ^ 32 + 4 - (3 * 2 ^ 32 - 7) >? 10).
Proof.
  apply (proj1 elapsed_tolerates_wraparound (3 * 2 ^ 32 - 7) (3 * 2 ^ 32 + 4));
    lia.
Defined.

Section SchedulerFacts.

Variable time : nat -> Z.

Lemma loc_S n : loc time (S n) = snd (step time n (loc time n)).
Proof. reflexivity. Qed.

Lemma trace_S n : trace time (S n) = trace time n ++ [event_at time n].
Proof.
  unfold trace. now rewrite seq_S, map_app.
Qed.

(** Where control was one statement earlier. *)
Lemma loc_pred n :
  match loc time (S n) with
  | OuterTop => loc time n = AtUsb10Ms
  | InnerTop st =>
      (loc time n = OuterTop /\ st = read_ms time n) \/ loc time n = AtPollUsb st
  | AtPollUart st =>
      loc time n = InnerTop st /\ elapsed_over (read_ms time n) st = false
  | AtPollCan st => loc time n = AtPollUart st
  | AtPollUsb st => loc time n = AtPollCan st
  | AtCan10Ms =>
      exists st, loc time n = InnerTop st /\ elapsed_over (read_ms time n) st = true
  | AtUsb10Ms => loc time n = AtCan10Ms
  end.
Proof.
  rewrite loc_S. destruct (loc time n) as [|st|st|st|st| |]; simpl; auto.
  destruct (elapsed_over (read_ms time n) st) eqn:E; simpl; eauto.
Qed.

(** The event of a statement tells where control was. *)
Lemma event_loc k :
  match event_at time k with
  | ReadStart v => loc time k = OuterTop /\ v = read_ms time k
  | ReadNow v => exists st, loc time k = InnerTop st /\ v = read_ms time k
  | Poll uart => exists st, loc time k = AtPollUart st
  | Poll can_manager => exists st, loc time k = AtPollCan st
  | Poll usb => exists st, loc time k = AtPollUsb st
  | Poll10Ms can_manager => loc time k = AtCan10Ms
  | Poll10Ms usb => loc time k = AtUsb10Ms
  | Poll10Ms uart => False
  end.
Proof.
  unfold event_at. destruct (loc time k) as [|st|st|st|st| |]; simpl; eauto.
Qed.

Lemma loc_event k :
  event_at time k =
    match loc time k with
    | OuterTop => ReadStart (read_ms time k)
    | InnerTop _ => ReadNow (read_ms time k)
    | AtPollUart _ => Poll uart
    | AtPollCan _ => Poll can_manager
    | AtPollUsb _ => Poll usb
    | AtCan10Ms => Poll10Ms can_manager
    | AtUsb10Ms => Poll10Ms usb
    end.
Proof.
  unfold event_at. destruct (loc time k); reflexivity.
Qed.

(** A pass, once entered, runs its three statements. *)
Lemma pass_runs k st :
  loc time k = AtPollUart st ->
  loc time (k + 1) = AtPollCan st /\ loc time (k + 2) = AtPollUsb st /\
  loc time (k + 3) = InnerTop st.
Proof.
  intros H.
  replace (k + 1)%nat with (S k) by lia.
  replace (k + 2)%nat with (S (S k)) by lia.
  replace (k + 3)%nat with (S (S (S k))) by lia.
  rewrite !loc_S, H. simpl. auto.
Qed.

(** The slow path, once entered, runs its two statements and the next
    cycle begins. *)
Lemma slow_path_runs k :
  loc time k = AtCan10Ms ->
  loc time (k + 1) = AtUsb10Ms /\ loc time (k + 2) = OuterTop.
Proof.
  intros H.
  replace (k + 1)%nat with (S k) by lia.
  replace (k + 2)%nat with (S (S k)) by lia.
  rewrite !loc_S, H. simpl. auto.
Qed.

Lemma cycle_start_S n :
  cycle_start time (S n)
  = match loc time (S n) with
    | OuterTop => S n
    | _ => cycle_start time n
    end.
Proof. reflexivity. Qed.

Lemma cycle_start_le n : (cycle_start time n <= n)%nat.
Proof.
  induction n as [|n IH]; [simpl; lia|].
  rewrite cycle_start_S. destruct (loc time (S n)); lia.
Qed.

Lemma cycle_start_here n :
  loc time n = OuterTop -> cycle_start time n = n.
Proof.
  destruct n as [|n]; [reflexivity|].
  intros H. now rewrite cycle_start_S, H.
Qed.

Lemma cycle_start_keep n :
  loc time (S n) <> OuterTop -> cycle_start time (S n) = cycle_start time n.
Proof.
  intros H. rewrite cycle_start_S.
  destruct (loc time (S n)); congruence.
Qed.

Lemma cycle_start_OuterTop n : loc time (cycle_start time n) = OuterTop.
Proof.
  induction n as [|n IH]; [reflexivity|].
  destruct (loc time (S n)) eqn:E;
    [now rewrite cycle_start_here | rewrite cycle_start_keep; congruence ..].
Qed.

Lemma cycle_start_last n j :
  (cycle_start time n < j <= n)%nat -> loc time j <> OuterTop.
Proof.
  induction n as [|n IH]; [simpl; lia|].
  intros Hj Hloc.
  destruct (Nat.eq_dec j (S n)) as [->|Hne].
  - rewrite cycle_start_here in Hj by exact Hloc. lia.
  - destruct (loc time (S n)) eqn:E;
      [ rewrite cycle_start_here in Hj by exact E; lia
      | rewrite cycle_start_keep in Hj by congruence;
        apply IH; [lia | exact Hloc] .. ].
Qed.

(** In the inner loop, [start] is the reading of the statement that
    opened the cycle. *)
Lemma cycle_start_value n st :
  start_of (loc time n) = Some st ->
  st = read_ms time (cycle_start time n) /\ (cycle_start time n < n)%nat.
Proof.
  revert st. induction n as [|n IH]; intros st H; [discriminate|].
  pose proof (loc_pred n) as P. pose proof (cycle_start_le n) as Hle.
  destruct (loc time (S n)) eqn:E; simpl in H; try discriminate;
    injection H as <-; rewrite cycle_start_keep by congruence.
  - destruct P as [[Ho ->]|P].
    + rewrite cycle_start_here by exact Ho. split; [reflexivity|lia].
    + destruct (IH start) as [-> ?]; [now rewrite P|]. split; [reflexivity|lia].
  - destruct P as [P _].
    destruct (IH start) as [-> ?]; [now rewrite P|]. split; [reflexivity|lia].
  - destruct (IH start) as [-> ?]; [now rewrite P|]. split; [reflexivity|lia].
  - destruct (IH start) as [-> ?]; [now rewrite P|]. split; [reflexivity|lia].
Qed.

(** Until control leaves the inner loop, the cycle has not touched
    the slow path. *)
Lemma no_slow_in_cycle n :
  in_slow_path (loc time n) = false ->
  forall j, (cycle_start time n <= j <= n)%nat ->
            in_slow_path (loc time j) = false.
Proof.
  induction n as [|n IH]; intros H j Hj.
  - replace j with 0%nat by (simpl in Hj; lia). reflexivity.
  - destruct (Nat.eq_dec j (S n)) as [->|Hne]; [exact H|].
    pose proof (loc_pred n) as P.
    destruct (loc time (S n)) eqn:E; simpl in H; try discriminate.
    + rewrite cycle_start_here in Hj by exact E. lia.
    + rewrite cycle_start_keep in Hj by congruence.
      apply IH; [|lia]. destruct P as [[-> _]| ->]; reflexivity.
    + rewrite cycle_start_keep in Hj by congruence.
      apply IH; [|lia]. destruct P as [-> _]; reflexivity.
    + rewrite cycle_start_keep in Hj by congruence.
      apply IH; [|lia]. now rewrite P.
    + rewrite cycle_start_keep in Hj by congruence.
      apply IH; [|lia]. now rewrite P.
Qed.

(** What holds when control reaches [can_manager.Poll10Ms()]. *)
Lemma at_Can10Ms k :
  loc time k = AtCan10Ms ->
  exists n,
    k = S n /\
    cycle_start time k = cycle_start time n /\
    (cycle_start time n < n)%nat /\
    loc time n = InnerTop (read_ms time (cycle_start time n)) /\
    elapsed_over (read_ms time n) (read_ms time (cycle_start time n)) = true /\
    forall j, (cycle_start time n <= j <= n)%nat ->
              in_slow_path (loc time j) = false.
Proof.
  destruct k as [|n]; [discriminate|]. intros H. exists n.
  pose proof (loc_pred n) as P. rewrite H in P.
  destruct P as (st & Hn & Hel).
  destruct (cycle_start_value n st) as [-> Hlt]; [now rewrite Hn|].
  split; [reflexivity|].
  split; [apply cycle_start_keep; congruence|].
  split; [exact Hlt|]. split; [exact Hn|]. split; [exact Hel|].
  apply no_slow_in_cycle. now rewrite Hn.
Qed.

Hypothesis time_monotone : monotone time.

(** The time since the cycle was opened, at [can_manager.Poll10Ms()]. *)
Lemma Can10Ms_elapsed k :
  loc time k = AtCan10Ms ->
  time k - time (cycle_start time k) > 10.
Proof.
  intros H. destruct (at_Can10Ms k H) as (n & -> & Hs & Hlt & _ & Hel & _).
  rewrite Hs.
  assert (time n - time (cycle_start time n) > 10).
  { apply elapsed_over_sound; [apply time_monotone; lia | exact Hel]. }
  assert (time n <= time (S n)) by (apply time_monotone; lia).
  lia.
Qed.

(** Two calls of the same [Poll10Ms] are more than 10 ms apart. *)
Lemma Poll10Ms_apart k' k p :
  (k' < k)%nat ->
  event_at time k' = Poll10Ms p -> event_at time k = Poll10Ms p ->
  time k - time k' > 10.
Proof.
  intros Hlt E' E.
  pose proof (event_loc k') as L'. rewrite E' in L'.
  pose proof (event_loc k) as L. rewrite E in L.
  destruct p; [contradiction| |].
  - pose proof (Can10Ms_elapsed k L) as Hel.
    destruct (at_Can10Ms k L) as (n & -> & Hs & Hsn & _ & _ & Hno).
    assert (Hk' : (k' <= cycle_start time (S n))%nat).
    { destruct (Nat.le_gt_cases k' (cycle_start time (S n))) as [?|Hgt];
        [assumption|].
      rewrite Hs in Hgt. specialize (Hno k').
      rewrite L' in Hno. discriminate Hno. lia. }
    assert (time k' <= time (cycle_start time (S n)))
      by now apply time_monotone.
    lia.
  - destruct k as [|n]; [discriminate|].
    pose proof (loc_pred n) as P. rewrite L in P.
    pose proof (Can10Ms_elapsed n P) as Hel.
    destruct (at_Can10Ms n P) as (m & -> & Hs & Hsm & _ & _ & Hno).
    assert (Hk' : (k' <= cycle_start time (S m))%nat).
    { destruct (Nat.le_gt_cases k' (cycle_start time (S m))) as [?|Hgt];
        [assumption|].
      rewrite Hs in Hgt.
      destruct (Nat.eq_dec k' (S m)) as [->|Hne]; [congruence|].
      specialize (Hno k').
      rewrite L' in Hno. discriminate Hno. lia. }
    assert (time k' <= time (cycle_start time (S m)))
      by now apply time_monotone.
    assert (time (S m) <= time (S (S m))) by (apply time_monotone; lia).
    lia.
Qed.

End SchedulerFacts.

(** C3.  Every pass of the inner loop, that is every time the test at
    its top does not leave the loop, calls [uart.Poll()], then
    [can_manager.Poll()], then [usb.Poll()], once each and with nothing
    in between, and comes back to the test; and every [Poll] of the run
    is one of the three calls of such a pass.  This holds for every
    clock, so in all passes of all outer cycles. *)
Theorem inner_pass_polls_in_order :
  forall (time : nat -> Z) (k : nat),
    (forall start,
       loc time k = InnerTop start ->
       elapsed_over (read_ms time k) start = false ->
       trace time (k + 4)
         = trace time k
           ++ [ReadNow (read_ms time k); Poll uart; Poll can_manager;
               Poll usb] /\
       loc time (k + 4) = InnerTop start) /\
    (forall p,
       event_at time k = Poll p ->
       exists j start,
         (j < k <= j + 3)%nat /\
         loc time j = InnerTop start /\
         elapsed_over (read_ms time j) start = false /\
         event_at time (j + 1) = Poll uart /\
         event_at time (j + 2) = Poll can_manager /\
         event_at time (j + 3) = Poll usb /\
         nth_error [uart; can_manager; usb] (k - j - 1) = Some p).
Proof.
  intros time k. split.
  - intros start Hloc Hel.
    assert (H1 : loc time (S k) = AtPollUart start).
    { rewrite loc_S, Hloc. simpl. now rewrite Hel. }
    destruct (pass_runs time (S k) start H1) as (H2 & H3 & H4).
    replace (k + 4)%nat with (S (S (S (S k)))) by lia.
    replace (S k + 1)%nat with (S (S k)) in H2 by lia.
    replace (S k + 2)%nat with (S (S (S k))) in H3 by lia.
    replace (S k + 3)%nat with (S (S (S (S k)))) in H4 by lia.
    split; [|exact H4].
    rewrite !trace_S, !loc_event, Hloc, H1, H2, H3.
    rewrite <- !app_assoc. reflexivity.
  - intros p E.
    pose proof (event_loc time k) as L. rewrite E in L.
    assert (Hpass : forall j start,
              loc time (S j) = AtPollUart start ->
              loc time j = InnerTop start /\
              elapsed_over (read_ms time j) start = false /\
              event_at time (j + 1) = Poll uart /\
              event_at time (j + 2) = Poll can_manager /\
              event_at time (j + 3) = Poll usb).
    { intros j start H1.
      pose proof (loc_pred time j) as P. rewrite H1 in P.
      destruct P as [P0 Pel].
      destruct (pass_runs time (S j) start H1) as (H2 & H3 & _).
      replace (S j + 1)%nat with (j + 2)%nat in H2 by lia.
      replace (S j + 2)%nat with (j + 3)%nat in H3 by lia.
      replace (S j) with (j + 1)%nat in H1 by lia.
      rewrite !loc_event, H1, H2, H3. auto. }
    destruct p.
    + destruct L as (start & L).
      destruct k as [|j]; [discriminate|].
      exists j, start.
      destruct (Hpass j start L) as (? & ? & ? & ? & ?).
      replace (S j - j - 1)%nat with 0%nat by lia.
      repeat split; auto; lia.
    + destruct L as (start & L).
      destruct k as [|k]; [discriminate|].
      pose proof (loc_pred time k) as P. rewrite L in P.
      destruct k as [|j]; [discriminate|].
      exists j, start.
      destruct (Hpass j start P) as (? & ? & ? & ? & ?).
      replace (S (S j) - j - 1)%nat with 1%nat by lia.
      repeat split; auto; lia.
    + destruct L as (start & L).
      destruct k as [|k]; [discriminate|].
      pose proof (loc_pred time k) as P. rewrite L in P.
      destruct k as [|k]; [discriminate|].
      pose proof (loc_pred time k) as P'. rewrite P in P'.
      destruct k as [|j]; [discriminate|].
      exists j, start.
      destruct (Hpass j start P') as (? & ? & ? & ? & ?).
      replace (S (S (S j)) - j - 1)%nat with 2%nat by lia.
      repeat split; auto; lia.
Qed.

Lemma inner_pass_polls_in_order_witness :
  trace steady (1 + 4)
  = trace steady 1
    ++ [ReadNow (read_ms steady 1); Poll uart; Poll can_manager; Poll usb] /\
  loc steady (1 + 4) = InnerTop 0.
Proof.
  apply (proj1 (inner_pass_polls_in_order steady 1) 0); reflexivity.
Defined.

(** The run in which the first [uart.Poll()] blocks. *)
Lemma blocked_poll_monotone D : monotone (blocked_poll D).
Proof.
  intros i j Hij. unfold blocked_poll.
  destruct (Nat.ltb_spec i 3), (Nat.ltb_spec j 3); lia.
Qed.

Lemma blocked_poll_run D :
  loc (blocked_poll D) 6 = AtCan10Ms /\
  cycle_start (blocked_poll D) 6 = 0%nat.
Proof.
  assert (Hlate : forall k, (3 <= k)%nat -> read_ms (blocked_poll D) k = 11).
  { intros k Hk. unfold read_ms, blocked_poll, UInt32.wrap, UInt32.modulus.
    destruct (Nat.ltb_spec k 3); [lia|].
    rewrite Z.add_comm, Z.mul_comm, Z.mod_add by lia. reflexivity. }
  assert (H1 : loc (blocked_poll D) 1 = InnerTop 0) by reflexivity.
  assert (H2 : loc (blocked_poll D) 2 = AtPollUart 0) by reflexivity.
  assert (H3 : loc (blocked_poll D) 3 = AtPollCan 0) by reflexivity.
  assert (H4 : loc (blocked_poll D) 4 = AtPollUsb 0) by reflexivity.
  assert (H5 : loc (blocked_poll D) 5 = InnerTop 0) by reflexivity.
  assert (H6 : loc (blocked_poll D) 6 = AtCan10Ms).
  { rewrite loc_S, H5. cbn [step snd]. rewrite Hlate by lia. reflexivity. }
  split; [exact H6|].
  rewrite cycle_start_keep by (rewrite H6; discriminate).
  rewrite cycle_start_keep by (rewrite H5; discriminate).
  rewrite cycle_start_keep by (rewrite H4; discriminate).
  rewrite cycle_start_keep by (rewrite H3; discriminate).
  rewrite cycle_start_keep by (rewrite H2; discriminate).
  rewrite cycle_start_keep by (rewrite H1; discriminate).
  reflexivity.
Qed.

(** C4.  With a clock that never runs backwards: when
    [can_manager.Poll10Ms()] is called, the cycle was opened by a reading
    of [start] more than 10 ms earlier, the statement just before the call
    is the test that found the 10 ms over, nothing of the slow path and no
    new cycle lies between that reading and the call, [usb.Poll10Ms()]
    follows at once and the next cycle opens only behind it; two calls of
    the same [Poll10Ms] are more than 10 ms apart, and in the cycle each
    of the two is called exactly once; and for every bound
    there is a run, with a [Poll] that blocks, in which the call comes
    later than the bound.  For every clock: a test that finds the 10 ms
    over is followed by [can_manager.Poll10Ms()], [usb.Poll10Ms()] and
    the reading that opens the next cycle, and a test that does not is
    followed by a pass of the same cycle; the run starts by opening a
    cycle, and every later opening of a cycle comes directly behind such
    a test and the two [Poll10Ms] calls, which are the only ones of the
    cycle it closes. *)
Theorem Poll10Ms_once_per_cycle_after_10ms :
  (forall time : nat -> Z,
     monotone time ->
     forall k,
       event_at time k = Poll10Ms can_manager ->
       let s := cycle_start time k in
       (s < k)%nat /\
       event_at time s = ReadStart (read_ms time s) /\
       (exists v, event_at time (k - 1) = ReadNow v /\
                  elapsed_over v (read_ms time s) = true) /\
       time k - time s > 10 /\
       time (k + 1)%nat - time s > 10 /\
       (forall j, (s < j < k)%nat ->
                  (forall p, event_at time j <> Poll10Ms p) /\
                  (forall v, event_at time j <> ReadStart v)) /\
       (forall j p, (s <= j < k + 2)%nat ->
                    (event_at time j = Poll10Ms p <->
                     (j = k /\ p = can_manager) \/
                     (j = (k + 1)%nat /\ p = usb))) /\
       event_at time (k + 1) = Poll10Ms usb /\
       event_at time (k + 2) = ReadStart (read_ms time (k + 2))) /\
  (forall time : nat -> Z,
     monotone time ->
     forall k' k p,
       (k' < k)%nat ->
       event_at time k' = Poll10Ms p -> event_at time k = Poll10Ms p ->
       time k - time k' > 10) /\
  (forall D : Z,
     exists (time : nat -> Z) (k : nat),
       monotone time /\
       event_at time k = Poll10Ms can_manager /\
       time k - time (cycle_start time k) >= D) /\
  (forall (time : nat -> Z) (k : nat) (v : Z),
     event_at time k = ReadNow v ->
     (elapsed_over v (read_ms time (cycle_start time k)) = true ->
      event_at time (k + 1) = Poll10Ms can_manager /\
      event_at time (k + 2) = Poll10Ms usb /\
      event_at time (k + 3) = ReadStart (read_ms time (k + 3)) /\
      trace time (k + 4)
        = trace time k
          ++ [ReadNow v; Poll10Ms can_manager; Poll10Ms usb;
              ReadStart (read_ms time (k + 3))]) /\
     (elapsed_over v (read_ms time (cycle_start time k)) = false ->
      event_at time (k + 1) = Poll uart /\
      cycle_start time (k + 1) = cycle_start time k)) /\
  (forall time : nat -> Z,
     event_at time 0 = ReadStart (read_ms time 0) /\
     forall (k : nat) (v : Z),
       (0 < k)%nat ->
       event_at time k = ReadStart v ->
       (3 <= k)%nat /\
       (exists v',
          event_at time (k - 3) = ReadNow v' /\
          elapsed_over v' (read_ms time (cycle_start time (k - 3))) = true) /\
       event_at time (k - 2) = Poll10Ms can_manager /\
       event_at time (k - 1) = Poll10Ms usb /\
       (cycle_start time (k - 1) < k - 3)%nat /\
       (forall j p,
          (cycle_start time (k - 1) <= j < k)%nat ->
          (event_at time j = Poll10Ms p <->
           (j = (k - 2)%nat /\ p = can_manager) \/
           (j = (k - 1)%nat /\ p = usb)))).
Proof.
  split; [|split; [|split; [|split]]].
  - intros time Hmono k E s.
    pose proof (event_loc time k) as L. rewrite E in L.
    pose proof (Can10Ms_elapsed time Hmono k L) as Hel.
    destruct (slow_path_runs time k L) as [L1 L2].
    destruct (at_Can10Ms time k L) as (n & -> & Hs & Hsn & Hn & Heln & Hno).
    subst s. rewrite Hs in *.
    split; [lia|].
    split; [now rewrite loc_event, cycle_start_OuterTop|].
    split.
    { exists (read_ms time n).
      replace (S n - 1)%nat with n by lia.
      now rewrite loc_event, Hn. }
    split; [exact Hel|].
    split.
    { assert (time (S n) <= time (S n + 1)%nat) by (apply Hmono; lia). lia. }
    split.
    { intros j Hj. split.
      - intros p Ej. pose proof (event_loc time j) as Lj. rewrite Ej in Lj.
        assert (Hs' : in_slow_path (loc time j) = false)
          by (apply Hno; lia).
        destruct p; [contradiction| |]; rewrite Lj in Hs'; discriminate.
      - intros v Ej. pose proof (event_loc time j) as Lj. rewrite Ej in Lj.
        destruct Lj as [Lj _].
        apply (cycle_start_last time n j); [lia | exact Lj]. }
    assert (E1 : event_at time (S n + 1) = Poll10Ms usb)
      by now rewrite loc_event, L1.
    split; [|split; [exact E1 | now rewrite loc_event, L2]].
    intros j p Hj. split.
    + intros Ej.
      destruct (Nat.eq_dec j (S n)) as [->|Hne1];
        [left; split; [reflexivity | congruence]|].
      destruct (Nat.eq_dec j (S n + 1)) as [->|Hne2];
        [right; split; [reflexivity | congruence]|].
      exfalso.
      pose proof (event_loc time j) as Lj. rewrite Ej in Lj.
      assert (Hs' : in_slow_path (loc time j) = false)
        by (apply Hno; lia).
      destruct p; [contradiction| |]; rewrite Lj in Hs'; discriminate.
    + intros [[-> ->]|[-> ->]]; [exact E | exact E1].
  - intros time Hmono k' k p. apply Poll10Ms_apart. exact Hmono.
  - intros D. exists (blocked_poll D), 6%nat.
    destruct (blocked_poll_run D) as [H6 Hs].
    split; [apply blocked_poll_monotone|].
    split; [now rewrite loc_event, H6|].
    rewrite Hs. unfold blocked_poll.
    change (6 <? 3)%nat with false. change (0 <? 3)%nat with true.
    cbv iota. lia.
  - intros time k v E.
    pose proof (event_loc time k) as L. rewrite E in L.
    destruct L as (st & Hloc & ->).
    destruct (cycle_start_value time k st) as [Hst _]; [now rewrite Hloc|].
    rewrite <- Hst.
    replace (k + 1)%nat with (S k) by lia.
    split; intros Hel.
    + assert (H1 : loc time (S k) = AtCan10Ms)
        by (rewrite loc_S, Hloc; simpl; now rewrite Hel).
      destruct (slow_path_runs time (S k) H1) as [H2 H3].
      replace (S k + 1)%nat with (S (S k)) in H2 by lia.
      replace (S k + 2)%nat with (S (S (S k))) in H3 by lia.
      replace (k + 2)%nat with (S (S k)) by lia.
      replace (k + 3)%nat with (S (S (S k))) by lia.
      replace (k + 4)%nat with (S (S (S (S k)))) by lia.
      rewrite !trace_S, !loc_event, Hloc, H1, H2, H3.
      repeat split. rewrite <- !app_assoc. reflexivity.
    + assert (H1 : loc time (S k) = AtPollUart st)
        by (rewrite loc_S, Hloc; simpl; now rewrite Hel).
      split; [now rewrite loc_event, H1|].
      apply cycle_start_keep. rewrite H1. discriminate.
  - intros time. split; [reflexivity|].
    intros k v Hk E.
    pose proof (event_loc time k) as L. rewrite E in L.
    destruct L as [L _].
    destruct k as [|n]; [lia|].
    pose proof (loc_pred time n) as Pn. rewrite L in Pn.
    destruct n as [|m]; [discriminate|].
    pose proof (loc_pred time m) as Pm. rewrite Pn in Pm.
    destruct (at_Can10Ms time m Pm) as (q & -> & Hs & Hsq & Hq & Hel & Hno).
    assert (Hcs : cycle_start time (S (S q)) = cycle_start time q).
    { rewrite cycle_start_keep by (rewrite Pn; discriminate). exact Hs. }
    replace (S (S (S q)) - 3)%nat with q by lia.
    replace (S (S (S q)) - 2)%nat with (S q) by lia.
    replace (S (S (S q)) - 1)%nat with (S (S q)) by lia.
    rewrite Hcs.
    split; [lia|].
    split; [exists (read_ms time q); split;
            [now rewrite loc_event, Hq | exact Hel]|].
    split; [now rewrite loc_event, Pm|].
    split; [now rewrite loc_event, Pn|].
    split; [exact Hsq|].
    intros j p Hj. split.
    + intros Ej.
      destruct (Nat.eq_dec j (S q)) as [->|Hne1].
      { left. split; [reflexivity|].
        rewrite loc_event, Pm in Ej. congruence. }
      destruct (Nat.eq_dec j (S (S q))) as [->|Hne2].
      { right. split; [reflexivity|].
        rewrite loc_event, Pn in Ej. congruence. }
      exfalso.
      pose proof (event_loc time j) as Lj. rewrite Ej in Lj.
      assert (Hs' : in_slow_path (loc time j) = false)
        by (apply Hno; lia).
      destruct p; [contradiction| |]; rewrite Lj in Hs'; discriminate.
    + intros [[-> ->]|[-> ->]];
        [now rewrite loc_event, Pm | now rewrite loc_event, Pn].
Qed.

Lemma steady_monotone : monotone steady.
Proof. intros i j Hij. unfold steady. lia. Qed.

Lemma Poll10Ms_once_per_cycle_after_10ms_witness :
  steady 14 - steady (cycle_start steady 14) > 10.
Proof.
  apply (proj1 (proj2 (proj2 (proj2
           (proj1 Poll10Ms_once_per_cycle_after_10ms
              steady steady_monotone 14%nat eq_refl))))).
Defined.

(** C10.  The test against the 10 ms is made at the top of the inner loop
    and nowhere else.  Once a pass is entered its three [Poll] calls run
    whatever the clock does meanwhile, and the next statement is the test;
    no [Poll10Ms] comes directly behind a [Poll], and
    [can_manager.Poll10Ms()] always comes directly behind a test.  In the
    run where the 10 ms are over between [uart.Poll()] and
    [can_manager.Poll()], the pass is completed before the slow path. *)
Theorem threshold_tested_between_passes_only :
  (forall (time : nat -> Z) (k : nat) (start : Z),
     loc time k = AtPollUart start ->
     trace time (k + 4)
       = trace time k
         ++ [Poll uart; Poll can_manager; Poll usb;
             ReadNow (read_ms time (k + 3))] /\
     loc time (k + 3) = InnerTop start) /\
  (forall (time : nat -> Z) (k : nat) (q : pollable),
     event_at time k = Poll q ->
     forall p, event_at time (k + 1) <> Poll10Ms p) /\
  (forall (time : nat -> Z) (k : nat),
     event_at time k = Poll10Ms can_manager ->
     (1 <= k)%nat /\
     exists start,
       loc time (k - 1) = InnerTop start /\
       event_at time (k - 1) = ReadNow (read_ms time (k - 1)) /\
       elapsed_over (read_ms time (k - 1)) start = true) /\
  (elapsed_over (read_ms crossed_mid_pass 3) (read_ms crossed_mid_pass 0)
     = true /\
   trace crossed_mid_pass 8
     = [ReadStart 0; ReadNow 0; Poll uart; Poll can_manager; Poll usb;
        ReadNow 1000; Poll10Ms can_manager; Poll10Ms usb]).
Proof.
  split; [|split; [|split; [|split; reflexivity]]].
  - intros time k start H1.
    destruct (pass_runs time k start H1) as (H2 & H3 & H4).
    split; [|exact H4].
    replace (k + 4)%nat with (S (S (S (S k)))) by lia.
    replace (k + 1)%nat with (S k) in H2 by lia.
    replace (k + 2)%nat with (S (S k)) in H3 by lia.
    replace (k + 3)%nat with (S (S (S k))) in * by lia.
    rewrite !trace_S, !loc_event, H1, H2, H3, H4.
    rewrite <- !app_assoc. reflexivity.
  - intros time k q E p.
    pose proof (event_loc time k) as L. rewrite E in L.
    replace (k + 1)%nat with (S k) by lia.
    rewrite loc_event, loc_S.
    destruct q; destruct L as (start & ->); simpl; discriminate.
  - intros time k E.
    pose proof (event_loc time k) as L. rewrite E in L.
    destruct (at_Can10Ms time k L) as (n & -> & _ & _ & Hn & Hel & _).
    split; [lia|].
    replace (S n - 1)%nat with n by lia.
    eexists. split; [exact Hn|]. split; [|exact Hel].
    now rewrite loc_event, Hn.
Qed.

Lemma threshold_tested_between_passes_only_witness :
  trace crossed_mid_pass (2 + 4)
  = trace crossed_mid_pass 2
    ++ [Poll uart; Poll can_manager; Poll usb;
        ReadNow (read_ms crossed_mid_pass (2 + 3))] /\
  loc crossed_mid_pass (2 + 3) = InnerTop 0.
Proof.
  apply (proj1 threshold_tested_between_passes_only crossed_mid_pass 2%nat 0).
  reflexivity.
Defined.

(** * Further properties *)

(** ** The selection *)



(** X2.  The selected value is a fixed point of the selection: writing
    the selected frequency back as the persisted value gives the same
    plan, and the values the selection leaves unchanged are exactly the
    three tiers. *)
Theorem can_clock_hz_fixed_points :
  forall c,
    can_clock_hz {| can_hz := can_clock_hz c |} = can_clock_hz c /\
    UpdateConfig_plan {| can_hz := plan_selected (UpdateConfig_plan c) |}
      = UpdateConfig_plan c /\
    (can_clock_hz c = can_hz c <-> In (can_hz c) tiers).
Proof.
  intros c.
  assert (Hfix : can_clock_hz {| can_hz := can_clock_hz c |}
                 = can_clock_hz c).
  { destruct (can_clock_hz_cases c) as [H|[H|[H|H]]];
      destruct H as [_ ->]; reflexivity. }
  split; [exact Hfix|]. split.
  - unfold UpdateConfig_plan, system_clock_hz. simpl plan_selected.
    now rewrite Hfix.
  - unfold tiers. simpl.
    destruct (can_clock_hz_cases c) as [H|[H|[H|H]]];
      destruct H as [Hr ->]; intuition lia.
Qed.

(** ** The PLL multiplier *)

Lemma Int_wrap_small z :
  Int.min_signed <= z <= Int.max_signed -> Int.wrap z = z.
Proof.
  unfold Int.min_signed, Int.max_signed, Int.wrap. intros H.
  rewrite Z.mod_small by lia. lia.
Qed.

Lemma PLLN_of_nonneg hz :
  0 <= hz <= Int.max_signed -> PLLN_of hz = hz / 2000000.
Proof.
  unfold Int.max_signed. intros H.
  unfold PLLN_of, UInt32.of_int, UInt32.wrap, UInt32.modulus,
    Int.div, Int.mul.
  assert (Hq : 0 <= hz / 1000000 < 2148).
  { split; [apply Z.div_pos; lia|].
    apply Z.div_lt_upper_bound; lia. }
  rewrite (Z.quot_div_nonneg hz 1000000) by lia.
  rewrite (Int_wrap_small (hz / 1000000))
    by (unfold Int.min_signed, Int.max_signed; lia).
  rewrite (Int_wrap_small (hz / 1000000 * 24))
    by (unfold Int.min_signed, Int.max_signed; lia).
  rewrite (Z.quot_div_nonneg (hz / 1000000 * 24) 48) by lia.
  assert (Hh : hz / 1000000 * 24 / 48 = hz / 2000000).
  { replace 48 with (24 * 2) by reflexivity.
    rewrite (Z.mul_comm (hz / 1000000) 24).
    rewrite Z.div_mul_cancel_l by lia.
    rewrite Z.div_div by lia. reflexivity. }
  rewrite Hh.
  assert (0 <= hz / 2000000 < 1074).
  { split; [apply Z.div_pos; lia|].
    apply Z.div_lt_upper_bound; lia. }
  rewrite Int_wrap_small by (unfold Int.min_signed, Int.max_signed; lia).
  apply Z.mod_small. lia.
Qed.

(** X3.  For a clock rate from 0 to the largest [int], the multiplier
    [(clock_rate_hz / 1000000) * 24 / 48] is computed without overflow and
    is the rate divided by 2 MHz, rounded down: a rate that is not a
    multiple of 2 MHz is programmed as the multiple below it. *)
Theorem PLLN_of_rounds_down :
  forall hz,
    0 <= hz <= Int.max_signed ->
    PLLN_of hz = hz / 2000000 /\
    2000000 * PLLN_of hz <= hz < 2000000 * (PLLN_of hz + 1) /\
    (2000000 * PLLN_of hz = hz <-> hz mod 2000000 = 0).
Proof.
  intros hz H. rewrite (PLLN_of_nonneg hz H).
  pose proof (Z.div_mod hz 2000000 ltac:(lia)) as Hdm.
  pose proof (Z.mod_pos_bound hz 2000000 ltac:(lia)) as Hb.
  repeat split; lia.
Qed.

Lemma PLLN_of_rounds_down_witness :
  PLLN_of 171999999 = 171999999 / 2000000.
Proof.
  apply (proj1 (PLLN_of_rounds_down 171999999
                  ltac:(unfold Int.max_signed; lia))).
Defined.

(** What one run of [SetupClock] adds to the log: its entry, the two
    enables, and accepted calls up to the first rejected one. *)
Lemma SetupClock_events hal hz w :
  exists evs,
    log (fst (SetupClock hal hz w)) = log w ++ evs /\
    ((snd (SetupClock hal hz w) = Some tt /\
      evs = SetupClock_header hz ++ ok_events (SetupClock_calls hz))
     \/
     (snd (SetupClock hal hz w) = None /\
      exists n c s,
        (n < 4)%nat /\ nth_error (SetupClock_calls hz) n = Some c /\
        s <> HAL_OK /\
        evs = SetupClock_header hz
              ++ ok_events (firstn n (SetupClock_calls hz))
              ++ [EvHal c s; EvDie])).
Proof.
  destruct (SetupClock_outcome hal hz w)
    as [E|(n & c & s & Hn & Hs & _ & E)]; rewrite E; simpl fst; simpl snd.
  - eexists. split; [reflexivity|]. left. now split.
  - eexists. split; [reflexivity|]. right. split; [reflexivity|].
    exists n, c, s. repeat split; auto.
    change 4%nat with (List.length (SetupClock_calls hz)).
    apply nth_error_Some. rewrite Hn. discriminate.
Qed.

(** X4.  Whatever value is persisted, every PLL configuration the update
    path issues carries the multiplier 60, 80 or 85: the selected
    frequency in MHz, which is exactly the requested system clock divided
    by 2 MHz. *)
Theorem UpdateConfig_PLLN :
  forall hal w evs o,
    log (fst (ClockManager_UpdateConfig hal w)) = log w ++ evs ->
    In (HAL_RCC_OscConfig o) (hal_calls evs) ->
    In (PLLN (PLL o)) [60; 80; 85] /\
    1000000 * PLLN (PLL o) = can_clock_hz (clock_ w) /\
    2000000 * PLLN (PLL o) = system_clock_hz (clock_ w).
Proof.
  intros hal w evs o Hlog Hin.
  rewrite UpdateConfig_eq in Hlog.
  destruct (SetupClock_events hal (system_clock_hz (clock_ w)) w)
    as (evs' & Hlog' & Hcases).
  rewrite Hlog' in Hlog. apply app_inv_head in Hlog. subst evs'.
  assert (Ho : o = OscInit (system_clock_hz (clock_ w))).
  { destruct Hcases as [[_ ->]|(_ & n & c & s & Hn & Hc & _ & ->)].
    - simpl in Hin. intuition congruence.
    - destruct n as [|[|[|[|n]]]]; [| | | | lia];
        cbn in Hc; injection Hc as <-; simpl in Hin; intuition congruence. }
  subst o. simpl PLLN.
  rewrite system_clock_hz_double.
  destruct (can_clock_hz_cases (clock_ w)) as [H|[H|[H|H]]];
    destruct H as [_ ->]; simpl; repeat split; auto.
Qed.

Lemma UpdateConfig_PLLN_witness :
  In (PLLN (PLL (OscInit 120000000))) [60; 80; 85] /\
  1000000 * PLLN (PLL (OscInit 120000000))
    = can_clock_hz (clock_ (World_init {| can_hz := 61000000 |})) /\
  2000000 * PLLN (PLL (OscInit 120000000))
    = system_clock_hz (clock_ (World_init {| can_hz := 61000000 |})).
Proof.
  apply (UpdateConfig_PLLN hal_accepts
           (World_init {| can_hz := 61000000 |})
           (SetupClock_header 120000000
            ++ ok_events (SetupClock_calls 120000000))
           (OscInit 120000000)).
  - reflexivity.
  - simpl. tauto.
Defined.

(** ** The order of the clock switches *)

Lemma clock_tree_safe_app src l1 l2 :
  clock_tree_safe src (l1 ++ l2)
  = clock_tree_safe src l1 && clock_tree_safe (sysclk_at_end src l1) l2.
Proof.
  revert src. induction l1 as [|e l1 IH]; intros src; simpl; [reflexivity|].
  rewrite IH. unfold sysclk_at_end. simpl. now rewrite andb_assoc.
Qed.

(** X5.  Wherever the system clock ran from before, one run of
    [SetupClock] programs the oscillators and the PLL only behind an
    accepted switch to the HSI, and selects the clock of the CAN
    peripheral only behind an accepted switch back to the PLL; a run that
    returns leaves the system clock on the PLL.  Hence any number of runs
    in a row keep that order. *)
Theorem SetupClock_switch_order :
  (forall hal hz w src evs,
     log (fst (SetupClock hal hz w)) = log w ++ evs ->
     clock_tree_safe src evs = true /\
     (snd (SetupClock hal hz w) = Some tt -> sysclk_at_end src evs = OnPLL)) /\
  (forall hal hz1 hz2 w src evs,
     snd (SetupClock hal hz1 w) = Some tt ->
     log (fst (SetupClock hal hz2 (fst (SetupClock hal hz1 w))))
       = log w ++ evs ->
     clock_tree_safe src evs = true).
Proof.
  assert (One : forall hal hz w src evs,
            log (fst (SetupClock hal hz w)) = log w ++ evs ->
            clock_tree_safe src evs = true /\
            (snd (SetupClock hal hz w) = Some tt ->
             sysclk_at_end src evs = OnPLL)).
  { intros hal hz w src evs Hlog.
    destruct (SetupClock_events hal hz w) as (evs' & Hlog' & Hcases).
    rewrite Hlog' in Hlog. apply app_inv_head in Hlog. subst evs'.
    destruct Hcases as [[Hok ->]|(Hnone & n & c & s & Hn & Hc & Hs & ->)].
    - destruct src; split; reflexivity.
    - split; [|rewrite Hnone; discriminate].
      destruct n as [|[|[|[|n]]]]; [| | | | lia];
        cbn in Hc; injection Hc as <-;
        destruct src, s; try congruence; reflexivity. }
  split; [exact One|].
  intros hal hz1 hz2 w src evs Hok Hlog.
  destruct (SetupClock_events hal hz1 w) as (evs1 & Hlog1 & _).
  destruct (SetupClock_events hal hz2 (fst (SetupClock hal hz1 w)))
    as (evs2 & Hlog2 & _).
  pose proof Hlog2 as Hlog2'.
  rewrite Hlog1, <- app_assoc in Hlog2'.
  rewrite Hlog2' in Hlog. apply app_inv_head in Hlog. subst evs.
  rewrite clock_tree_safe_app.
  destruct (One hal hz1 w src evs1 Hlog1) as [-> Hend].
  destruct (One hal hz2 _ (sysclk_at_end src evs1) evs2 Hlog2) as [-> _].
  reflexivity.
Qed.

Lemma SetupClock_switch_order_witness :
  clock_tree_safe OnPLL
    (SetupClock_header 170000000
     ++ ok_events (firstn 1 (SetupClock_calls 170000000))
     ++ [EvHal (HAL_RCC_OscConfig (OscInit 170000000)) HAL_ERROR; EvDie])
  = true.
Proof.
  apply (proj1 (proj1 SetupClock_switch_order
                  (hal_rejects 1 HAL_ERROR) 170000000
                  (World_init Config_default) OnPLL _ eq_refl)).
Defined.

(** ** Counting the calls of the polling loop *)

Lemma count_S f time n :
  count f time (S n)
  = (count f time n + if f (event_at time n) then 1 else 0)%nat.
Proof.
  unfold count. rewrite trace_S, filter_app, length_app. simpl.
  destruct (f (event_at time n)); reflexivity.
Qed.

(** The numbers of [Poll] calls, by where control is. *)
Lemma polls_balance time n :
  match loc time n with
  | AtPollCan _ =>
      count (is_poll uart) time n = S (count (is_poll can_manager) time n) /\
      count (is_poll can_manager) time n = count (is_poll usb) time n
  | AtPollUsb _ =>
      count (is_poll uart) time n = count (is_poll can_manager) time n /\
      count (is_poll can_manager) time n = S (count (is_poll usb) time n)
  | _ =>
      count (is_poll uart) time n = count (is_poll can_manager) time n /\
      count (is_poll can_manager) time n = count (is_poll usb) time n
  end.
Proof.
  induction n as [|n IH]; [split; reflexivity|].
  rewrite !count_S, loc_event, loc_S.
  destruct (loc time n) as [|st|st|st|st| |]; simpl;
    try destruct (elapsed_over (read_ms time n) st); simpl; lia.
Qed.

(** X6.  At every point of every run the three peripherals have been
    polled equally often up to the pass in progress: [usb] never more
    often than [can_manager], that never more often than [uart], and
    [uart] at most once more than [usb]; whenever a [Poll10Ms] is called
    or a cycle is opened, all three have been polled the same number of
    times. *)
Theorem polls_are_balanced :
  forall (time : nat -> Z) (n : nat),
    (count (is_poll usb) time n <= count (is_poll can_manager) time n)%nat /\
    (count (is_poll can_manager) time n <= count (is_poll uart) time n)%nat /\
    (count (is_poll uart) time n <= S (count (is_poll usb) time n))%nat /\
    (forall e,
       event_at time n = e ->
       is_poll10ms can_manager e || is_poll10ms usb e || is_read_start e
         = true ->
       count (is_poll uart) time n = count (is_poll can_manager) time n /\
       count (is_poll can_manager) time n = count (is_poll usb) time n).
Proof.
  intros time n. pose proof (polls_balance time n) as B.
  split; [|split; [|split]].
  1-3: destruct (loc time n); lia.
  intros e He Hk. rewrite loc_event in He. subst e.
  destruct (loc time n); simpl in Hk; try discriminate; lia.
Qed.

Lemma polls_are_balanced_witness :
  count (is_poll uart) steady 14 = count (is_poll can_manager) steady 14 /\
  count (is_poll can_manager) steady 14 = count (is_poll usb) steady 14.
Proof.
  apply (proj2 (proj2 (proj2 (polls_are_balanced steady 14)))
           (Poll10Ms can_manager)); reflexivity.
Defined.

(** The numbers of readings and of [Poll10Ms] calls, by where control
    is. *)
Lemma cycles_balance time n :
  let starts := count is_read_start time n in
  let tests := count is_read_now time n in
  let passes := count (is_poll uart) time n in
  let slow_can := count (is_poll10ms can_manager) time n in
  let slow_usb := count (is_poll10ms usb) time n in
  match loc time n with
  | OuterTop =>
      starts = slow_usb /\ slow_can = slow_usb /\
      tests = (passes + slow_can)%nat
  | InnerTop _ | AtPollCan _ | AtPollUsb _ =>
      starts = S slow_usb /\ slow_can = slow_usb /\
      tests = (passes + slow_can)%nat
  | AtPollUart _ | AtCan10Ms =>
      starts = S slow_usb /\ slow_can = slow_usb /\
      tests = S (passes + slow_can)
  | AtUsb10Ms =>
      starts = S slow_usb /\ slow_can = S slow_usb /\
      tests = (passes + slow_can)%nat
  end.
Proof.
  induction n as [|n IH]; [repeat split; reflexivity|].
  cbv zeta in *.
  rewrite !count_S, loc_event, loc_S.
  destruct (loc time n) as [|st|st|st|st| |]; simpl;
    try destruct (elapsed_over (read_ms time n) st); simpl; lia.
Qed.

(** X7.  At every point of every run: [usb.Poll10Ms()] has been called as
    often as [can_manager.Poll10Ms()] or once less; the cycles opened are
    the completed ones and at most one more; every test of the 10 ms was
    followed by a pass or by the slow path, the last one possibly not yet.
    When a cycle is opened, every earlier cycle has called both [Poll10Ms]
    exactly once. *)
Theorem cycles_are_balanced :
  forall (time : nat -> Z) (n : nat),
    let starts := count is_read_start time n in
    let tests := count is_read_now time n in
    let passes := count (is_poll uart) time n in
    let slow_can := count (is_poll10ms can_manager) time n in
    let slow_usb := count (is_poll10ms usb) time n in
    (slow_usb <= slow_can <= S slow_usb)%nat /\
    (slow_can <= starts <= S slow_usb)%nat /\
    (passes + slow_can <= tests <= S (passes + slow_can))%nat /\
    (loc time n = OuterTop ->
     starts = slow_can /\ slow_can = slow_usb /\
     tests = (passes + slow_can)%nat).
Proof.
  intros time n. pose proof (cycles_balance time n) as B.
  cbv zeta in *.
  split; [|split; [|split]].
  1-3: destruct (loc time n); lia.
  intros H. rewrite H in B. lia.
Qed.

Lemma cycles_are_balanced_witness :
  count is_read_start steady 16 = count (is_poll10ms can_manager) steady 16 /\
  count (is_poll10ms can_manager) steady 16
    = count (is_poll10ms usb) steady 16 /\
  count is_read_now steady 16
    = (count (is_poll uart) steady 16
       + count (is_poll10ms can_manager) steady 16)%nat.
Proof.
  apply (proj2 (proj2 (proj2 (cycles_are_balanced steady 16)))).
  reflexivity.
Defined.

(** ** Progress of the polling loop *)

(** A test of the inner loop is the first of its cycle, or comes one
    pass behind a test that did not leave the loop. *)
Lemma inner_pred time n st :
  loc time (S n) = InnerTop st ->
  (loc time n = OuterTop /\ st = read_ms time n /\
   cycle_start time (S n) = n)
  \/
  (exists m,
     n = S (S (S m)) /\ loc time m = InnerTop st /\
     elapsed_over (read_ms time m) st = false /\
     cycle_start time (S n) = cycle_start time m).
Proof.
  intros H. pose proof (loc_pred time n) as P. rewrite H in P.
  rewrite cycle_start_keep by (rewrite H; discriminate).
  destruct P as [[Ho ->]|P3].
  - left. split; [exact Ho|]. split; [reflexivity|].
    now apply cycle_start_here.
  - right. destruct n as [|n]; [discriminate|].
    pose proof (loc_pred time n) as P2. rewrite P3 in P2.
    rewrite cycle_start_keep by (rewrite P3; discriminate).
    destruct n as [|n]; [discriminate|].
    pose proof (loc_pred time n) as P1. rewrite P2 in P1.
    rewrite cycle_start_keep by (rewrite P2; discriminate).
    destruct n as [|m]; [discriminate|].
    pose proof (loc_pred time m) as P0. rewrite P1 in P0.
    rewrite cycle_start_keep by (rewrite P1; discriminate).
    destruct P0 as [P0 Hel].
    exists m. auto.
Qed.

(** From anywhere, control is at a test of the inner loop or on the slow
    path within three statements. *)
Lemma next_test time n :
  exists k, (n <= k <= n + 3)%nat /\
            ((exists st, loc time k = InnerTop st) \/ loc time k = AtCan10Ms).
Proof.
  destruct (loc time n) as [|st|st|st|st| |] eqn:E.
  - exists (S n). split; [lia|]. left. rewrite loc_S, E. simpl. eauto.
  - exists n. split; [lia|]. eauto.
  - destruct (pass_runs time n st E) as (_ & _ & H).
    exists (n + 3)%nat. split; [lia|]. eauto.
  - exists (S (S n)). split; [lia|]. left.
    rewrite !loc_S, E. simpl. eauto.
  - exists (S n). split; [lia|]. left. rewrite loc_S, E. simpl. eauto.
  - exists n. split; [lia|]. now right.
  - exists (S (S n)). split; [lia|]. left.
    rewrite !loc_S, E. simpl. eauto.
Qed.

Section SchedulerProgress.

Variable time : nat -> Z.
Hypothesis time_monotone : monotone time.

(** Four statements in a row take less than 2^32 - 10 ms. *)
Hypothesis pass_short : forall k : nat, time (k + 4)%nat - time k < 2 ^ 32 - 10.

(** At a test, less than 2^32 ms have passed since the cycle was
    opened, so the difference of the readings is the true time. *)
Lemma inner_elapsed_small n :
  forall st, loc time n = InnerTop st ->
             0 <= time n - time (cycle_start time n) < 2 ^ 32.
Proof.
  induction n as [n IH] using lt_wf_ind. intros st H.
  assert (Hge : time (cycle_start time n) <= time n)
    by (apply time_monotone, cycle_start_le).
  split; [lia|].
  destruct n as [|n]; [discriminate|].
  destruct (inner_pred time n st H)
    as [(Ho & _ & ->)|(m & -> & Hm & Hel & ->)].
  - pose proof (pass_short n).
    assert (time (S n) <= time (n + 4)%nat) by (apply time_monotone; lia).
    lia.
  - destruct (IH m ltac:(lia) st Hm) as [Hlo Hhi].
    destruct (cycle_start_value time m st) as [Hst _]; [now rewrite Hm|].
    subst st. unfold elapsed_over, read_ms in Hel.
    rewrite UInt32_sub_wrap, Z.mod_small in Hel by lia.
    pose proof (pass_short m).
    replace (S (S (S (S m)))) with (m + 4)%nat by lia.
    lia.
Qed.

Lemma inner_test_exact n st :
  loc time n = InnerTop st ->
  elapsed_over (read_ms time n) st
  = (time n - time (cycle_start time n) >? 10).
Proof.
  intros H. pose proof (inner_elapsed_small n st H) as Hs.
  destruct (cycle_start_value time n st) as [-> _]; [now rewrite H|].
  unfold elapsed_over, read_ms.
  now rewrite UInt32_sub_wrap, Z.mod_small by lia.
Qed.

(** Once the clock is more than 10 ms past the opening of the cycle,
    the inner loop is left at the next test. *)
Lemma reach_slow fuel :
  forall n st m,
    loc time n = InnerTop st ->
    time m - time (cycle_start time n) > 10 ->
    (m <= n + 4 * fuel)%nat ->
    exists k, (n <= k)%nat /\ loc time k = AtCan10Ms.
Proof.
  induction fuel as [|fuel IH]; intros n st m H Hm Hle.
  - exists (S n). split; [lia|].
    rewrite loc_S, H. simpl. rewrite (inner_test_exact n st H).
    assert (time m <= time n) by (apply time_monotone; lia).
    destruct (Z.gtb_spec (time n - time (cycle_start time n)) 10);
      [reflexivity | lia].
  - destruct (elapsed_over (read_ms time n) st) eqn:Hel.
    + exists (S n). split; [lia|]. rewrite loc_S, H. simpl. now rewrite Hel.
    + assert (H1 : loc time (S n) = AtPollUart st)
        by (rewrite loc_S, H; simpl; now rewrite Hel).
      destruct (pass_runs time (S n) st H1) as (H2 & H3 & H4).
      replace (S n + 1)%nat with (S (S n)) in H2 by lia.
      replace (S n + 2)%nat with (S (S (S n))) in H3 by lia.
      replace (S n + 3)%nat with (S (S (S (S n)))) in H4 by lia.
      assert (Hcs : cycle_start time (S (S (S (S n)))) = cycle_start time n).
      { rewrite cycle_start_keep by (rewrite H4; discriminate).
        rewrite cycle_start_keep by (rewrite H3; discriminate).
        rewrite cycle_start_keep by (rewrite H2; discriminate).
        rewrite cycle_start_keep by (rewrite H1; discriminate).
        reflexivity. }
      destruct (IH (S (S (S (S n)))) st m H4) as (k & Hk & Hloc);
        [now rewrite Hcs | lia |].
      exists k. split; [lia | exact Hloc].
Qed.

(** With a clock that keeps advancing, the slow path is reached again
    and again. *)
Hypothesis time_advances : forall T : Z, exists k : nat, T < time k.

Lemma slow_path_recurs n :
  exists k, (n <= k)%nat /\ loc time k = AtCan10Ms.
Proof.
  destruct (next_test time n) as (j & Hj & [(st & Hst)|Hslow]);
    [|exists j; split; [lia | exact Hslow]].
  destruct (time_advances (time (cycle_start time j) + 10)) as (m & Hm).
  destruct (reach_slow m j st m Hst) as (k & Hk & Hloc); [lia | lia |].
  exists k. split; [lia | exact Hloc].
Qed.

End SchedulerProgress.

(** X8.  With a clock that never runs backwards and keeps advancing, and
    no four statements in a row taking 2^32 - 10 ms or more, the
    maintenance calls are never starved: behind every point of the run
    [can_manager.Poll10Ms()] is called again, followed by
    [usb.Poll10Ms()]. *)
Theorem Poll10Ms_never_starved :
  forall time : nat -> Z,
    monotone time ->
    (forall k : nat, time (k + 4)%nat - time k < 2 ^ 32 - 10) ->
    (forall T : Z, exists k : nat, T < time k) ->
    forall n,
      exists k, (n <= k)%nat /\
                event_at time k = Poll10Ms can_manager /\
                event_at time (k + 1) = Poll10Ms usb.
Proof.
  intros time Hmono Hshort Hadv n.
  destruct (slow_path_recurs time Hmono Hshort Hadv n) as (k & Hk & Hloc).
  exists k. split; [exact Hk|].
  destruct (slow_path_runs time k Hloc) as [H1 _].
  now rewrite !loc_event, Hloc, H1.
Qed.

Lemma steady_advances : forall T : Z, exists k : nat, T < steady k.
Proof.
  intros T. exists (Z.to_nat (Z.max 0 T + 1)). unfold steady. lia.
Defined.

Lemma Poll10Ms_never_starved_witness :
  exists k, (100 <= k)%nat /\
            event_at steady k = Poll10Ms can_manager /\
            event_at steady (k + 1) = Poll10Ms usb.
Proof.
  apply (Poll10Ms_never_starved steady steady_monotone).
  - intros k. unfold steady. lia.
  - exact steady_advances.
Defined.

(** X9.  With a clock that never runs backwards and statements that
    take at most [d] ms each, [4 * d] below 2^32 - 10:
    [can_manager.Poll10Ms()] is called more than 10 ms and at most
    [10 + 5 * d] ms after the reading that opened its cycle. *)
Theorem Poll10Ms_delay_bounded :
  forall (time : nat -> Z) (d : Z),
    monotone time ->
    (forall k : nat, time (S k) - time k <= d) ->
    4 * d < 2 ^ 32 - 10 ->
    forall k,
      event_at time k = Poll10Ms can_manager ->
      10 < time k - time (cycle_start time k) <= 10 + 5 * d.
Proof.
  intros time d Hmono Hd Hsmall k E.
  assert (Hshort : forall j : nat, time (j + 4)%nat - time j < 2 ^ 32 - 10).
  { intros j.
    pose proof (Hd j). pose proof (Hd (S j)). pose proof (Hd (S (S j))).
    pose proof (Hd (S (S (S j)))).
    replace (j + 4)%nat with (S (S (S (S j)))) by lia. lia. }
  pose proof (event_loc time k) as L. rewrite E in L.
  pose proof (Can10Ms_elapsed time Hmono k L) as Hlow.
  split; [lia|].
  destruct (at_Can10Ms time k L) as (n & -> & Hs & Hsn & Hn & _ & _).
  rewrite Hs. pose proof (Hd n) as Hdn.
  destruct n as [|n]; [lia|].
  destruct (inner_pred time n _ Hn)
    as [(_ & _ & ->)|(m & -> & Hm & Hel & ->)].
  - pose proof (Hd n).
    assert (time n <= time (S n)) by (apply Hmono; lia). lia.
  - assert (time m <= time (S m)) by (apply Hmono; lia).
    rewrite (inner_test_exact time Hmono Hshort m _ Hm) in Hel.
    pose proof (Hd m). pose proof (Hd (S m)). pose proof (Hd (S (S m))).
    pose proof (Hd (S (S (S m)))).
    destruct (Z.gtb_spec (time m - time (cycle_start time m)) 10);
      [discriminate|]. lia.
Qed.

Lemma Poll10Ms_delay_bounded_witness :
  10 < steady 14 - steady (cycle_start steady 14) <= 10 + 5 * 1.
Proof.
  apply (Poll10Ms_delay_bounded steady 1 steady_monotone).
  - intros k. unfold steady. lia.
  - lia.
  - reflexivity.
Defined.

(** X10.  A cycle whose first test already finds the 10 ms over polls
    nothing: it is the reading of [start], the test and the two
    [Poll10Ms] calls.  With a clock that never runs backwards, a first
    test within 10 ms of the reading of [start] is followed by a full
    pass. *)
Theorem cycle_first_test :
  forall (time : nat -> Z) (k : nat),
    loc time k = OuterTop ->
    (elapsed_over (read_ms time (k + 1)) (read_ms time k) = true ->
     trace time (k + 4)
       = trace time k
         ++ [ReadStart (read_ms time k); ReadNow (read_ms time (k + 1));
             Poll10Ms can_manager; Poll10Ms usb] /\
     loc time (k + 4) = OuterTop) /\
    (monotone time ->
     time (k + 1)%nat - time k <= 10 ->
     trace time (k + 5)
       = trace time k
         ++ [ReadStart (read_ms time k); ReadNow (read_ms time (k + 1));
             Poll uart; Poll can_manager; Poll usb]).
Proof.
  intros time k H0.
  assert (H1 : loc time (S k) = InnerTop (read_ms time k))
    by (rewrite loc_S, H0; reflexivity).
  replace (k + 1)%nat with (S k) by lia.
  split.
  - intros Hel.
    assert (H2 : loc time (S (S k)) = AtCan10Ms)
      by (rewrite loc_S, H1; simpl; now rewrite Hel).
    destruct (slow_path_runs time (S (S k)) H2) as [H3 H4].
    replace (S (S k) + 1)%nat with (S (S (S k))) in H3 by lia.
    replace (S (S k) + 2)%nat with (S (S (S (S k)))) in H4 by lia.
    replace (k + 4)%nat with (S (S (S (S k)))) by lia.
    split; [|exact H4].
    rewrite !trace_S, !loc_event, H0, H1, H2, H3.
    rewrite <- !app_assoc. reflexivity.
  - intros Hmono Hd.
    assert (Hel : elapsed_over (read_ms time (S k)) (read_ms time k) = false).
    { assert (time k <= time (S k)) by (apply Hmono; lia).
      unfold elapsed_over, read_ms.
      rewrite UInt32_sub_wrap, Z.mod_small by lia.
      destruct (Z.gtb_spec (time (S k) - time k) 10); [lia | reflexivity]. }
    assert (H2 : loc time (S (S k)) = AtPollUart (read_ms time k))
      by (rewrite loc_S, H1; simpl; now rewrite Hel).
    destruct (pass_runs time (S (S k)) _ H2) as (H3 & H4 & _).
    replace (S (S k) + 1)%nat with (S (S (S k))) in H3 by lia.
    replace (S (S k) + 2)%nat with (S (S (S (S k)))) in H4 by lia.
    replace (k + 5)%nat with (S (S (S (S (S k))))) by lia.
    rewrite !trace_S, !loc_event, H0, H1, H2, H3, H4.
    rewrite <- !app_assoc. reflexivity.
Qed.

Lemma cycle_first_test_witness :
  trace (fun k => 11 * Z.of_nat k) (0 + 4)
  = trace (fun k => 11 * Z.of_nat k) 0
    ++ [ReadStart (read_ms (fun k => 11 * Z.of_nat k) 0);
        ReadNow (read_ms (fun k => 11 * Z.of_nat k) (0 + 1));
        Poll10Ms can_manager; Poll10Ms usb] /\
  loc (fun k => 11 * Z.of_nat k) (0 + 4) = OuterTop.
Proof.
  apply (proj1 (cycle_first_test (fun k => 11 * Z.of_nat k) 0 eq_refl)).
  reflexivity.
Defined.

(** X11.  The test sees the elapsed time modulo 2^32 ms only: a delay
    longer by whole multiples of 2^32 ms gives the same answer.  A
    reading that lies before [start], by less than 2^32 - 10 ms, makes
    the test fire at once. *)
Theorem elapsed_over_modulo :
  (forall now_time start_time m : Z,
     elapsed_over (UInt32.wrap (now_time + m * 2 ^ 32))
                  (UInt32.wrap start_time)
     = elapsed_over (UInt32.wrap now_time) (UInt32.wrap start_time)) /\
  (forall now_time start_time : Z,
     now_time < start_time ->
     start_time - now_time < 2 ^ 32 - 10 ->
     elapsed_over (UInt32.wrap now_time) (UInt32.wrap start_time) = true).
Proof.
  split.
  - intros n s m. unfold elapsed_over. rewrite !UInt32_sub_wrap.
    replace (n + m * 2 ^ 32 - s) with (n - s + m * 2 ^ 32) by lia.
    now rewrite Z.mod_add by lia.
  - intros n s Hlt Hd. unfold elapsed_over. rewrite UInt32_sub_wrap.
    replace (n - s) with (n - s + 2 ^ 32 + (-1) * 2 ^ 32) by lia.
    rewrite Z.mod_add, Z.mod_small by lia.
    destruct (Z.gtb_spec (n - s + 2 ^ 32) 10); [reflexivity | lia].
Qed.

Lemma elapsed_over_modulo_witness :
  elapsed_over (UInt32.wrap 99) (UInt32.wrap 100) = true.
Proof.
  apply (proj2 elapsed_over_modulo 99 100); lia.
Defined.

(** ** The boot sequence as a whole *)

(** [main] up to the loop: the first [SetupClock] halts the device, or
    the objects are constructed and [Load] ends in the update of the
    clock manager, behind which the two start calls run. *)
Lemma main_boot_cases hal flash garbage :
  (exists n c s,
     (n < 4)%nat /\ nth_error (SetupClock_calls 170000000) n = Some c /\
     s <> HAL_OK /\
     main_boot hal flash (World_init garbage)
     = (add_log (World_init garbage)
          (SetupClock_header 170000000
           ++ ok_events (firstn n (SetupClock_calls 170000000))
           ++ [EvHal c s; EvDie]), None))
  \/
  (exists W,
     log W = boot_prefix ++ [EvLoad] /\
     clock_ W = persisted flash /\
     elements W = [("clock", Ref_clock_, ClockManager_lambda)] /\
     main_boot hal flash (World_init garbage)
     = match ClockManager_UpdateConfig hal W with
       | (w', Some _) =>
           (add_log (add_log w' [EvCall "command_manager.AsyncStart"])
              [EvCall "can_manager.Start"], Some tt)
       | (w', None) => (w', None)
       end).
Proof.
  remember (main_boot hal flash (World_init garbage)) as out eqn:Hout.
  unfold main_boot in Hout. unfold bind at 1 in Hout.
  destruct (SetupClock_outcome hal 170000000 (World_init garbage))
    as [E|(n & c & s & Hn & Hs & _ & E)]; rewrite E in Hout.
  - right. unfold persisted.
    destruct (flash "clock") as [c0|] eqn:Hf;
      cbv - [ClockManager_UpdateConfig] in Hout;
      rewrite Hf in Hout; cbv beta iota in Hout;
      match type of Hout with
      | context [ClockManager_UpdateConfig hal ?w] => exists w
      end;
      (split; [reflexivity|]); (split; [reflexivity|]);
      (split; [reflexivity|]); rewrite Hout;
      destruct (ClockManager_UpdateConfig hal _) as [w' [[]|]];
      reflexivity.
  - left. exists n, c, s.
    split; [|split; [exact Hn | split; [exact Hs | exact Hout]]].
    change 4%nat with (List.length (SetupClock_calls 170000000)).
    apply nth_error_Some. rewrite Hn. discriminate.
Qed.

Lemma hal_results_app a b :
  hal_results (a ++ b) = hal_results a ++ hal_results b.
Proof. unfold hal_results. apply flat_map_app. Qed.

Lemma hal_results_ok l :
  hal_results (ok_events l) = repeat HAL_OK (List.length l).
Proof.
  induction l as [|c l IH]; simpl; [reflexivity|]. now rewrite <- IH.
Qed.

Lemma repeat_snoc_other {A} (a x : A) k m :
  x <> a -> repeat a k ++ [x] <> repeat a m.
Proof.
  intros Hx E. apply Hx. apply (repeat_spec m a x).
  rewrite <- E. apply in_or_app. right. now left.
Qed.

Lemma last_snoc2 {A} (l : list A) (a b d : A) : last (l ++ [a; b]) d = b.
Proof.
  replace (l ++ [a; b]) with ((l ++ [a]) ++ [b])
    by (now rewrite <- app_assoc).
  apply last_last.
Qed.

(** A halted run of [SetupClock] made no external call. *)
Lemma halted_setup_no_call m hz l c s :
  ~ In (EvCall m)
       (SetupClock_header hz ++ ok_events l ++ [EvHal c s; EvDie]).
Proof.
  intros Hin. apply in_app_or in Hin as [Hin|Hin].
  - simpl in Hin. intuition discriminate.
  - apply in_app_or in Hin as [Hin|Hin].
    + unfold ok_events in Hin. apply in_map_iff in Hin as (x & Hx & _).
      discriminate.
    + simpl in Hin. intuition discriminate.
Qed.

(** X12.  [main] reaches its polling loop exactly when none of the eight
    HAL calls of the boot was rejected.  Then [SetupClock] ran twice,
    for 170,000,000 and for twice the tier of the persisted value (the
    default when the flash holds none), [clock_] holds that value, and
    the two start calls are the last things done, in their order.
    Otherwise the device halted right behind the rejected call and
    neither start call was made.  ([Load] is the model of the store.) *)
Theorem main_boot_reaches_loop :
  forall hal flash garbage,
    let out := main_boot hal flash (World_init garbage) in
    (snd out = Some tt <->
     hal_results (log (fst out)) = repeat HAL_OK 8) /\
    (snd out = Some tt ->
     setup_requests (log (fst out))
       = [170000000; system_clock_hz (persisted flash)] /\
     hal_calls (log (fst out))
       = SetupClock_calls 170000000
         ++ SetupClock_calls (system_clock_hz (persisted flash)) /\
     clock_ (fst out) = persisted flash /\
     exists l,
       log (fst out)
       = l ++ [EvCall "command_manager.AsyncStart";
               EvCall "can_manager.Start"]) /\
    (snd out = None ->
     last (log (fst out)) EvLoad = EvDie /\
     (exists l c s, log (fst out) = l ++ [EvHal c s; EvDie] /\ s <> HAL_OK) /\
     forall m, ~ In (EvCall m) (log (fst out))).
Proof.
  intros hal flash garbage out. subst out.
  destruct (main_boot_cases hal flash garbage)
    as [(n & c & s & Hn & Hc & Hs & ->)|(W & HlogW & HclkW & _ & ->)].
  - unfold add_log, World_init. cbn [fst snd log].
    rewrite app_nil_l.
    split; [split; [discriminate|]|split; [discriminate|intros _]].
    + rewrite !hal_results_app, hal_results_ok. simpl.
      intros E. exfalso. exact (repeat_snoc_other _ _ _ 8 Hs E).
    + split; [|split].
      * rewrite !app_assoc. apply last_snoc2.
      * eexists; exists c, s. split; [|exact Hs].
        rewrite !app_assoc. reflexivity.
      * intros m. apply halted_setup_no_call.
  - rewrite UpdateConfig_eq, HclkW.
    set (sys := system_clock_hz (persisted flash)).
    destruct (SetupClock_outcome hal sys W)
      as [E|(n & c & s & Hc & Hs & _ & E)]; rewrite E.
    + unfold add_log. cbn [fst snd log clock_].
      rewrite HlogW.
      split; [split; [reflexivity|tauto]|].
      split; [intros _|discriminate].
      split; [reflexivity|]. split; [reflexivity|].
      split; [exact HclkW|]. eexists.
      rewrite <- (app_assoc _ [EvCall "command_manager.AsyncStart"]).
      reflexivity.
    + unfold add_log. cbn [fst snd log]. rewrite HlogW.
      split; [split; [discriminate|]|split; [discriminate|intros _]].
      * rewrite !hal_results_app, hal_results_ok.
        change (hal_results boot_prefix) with (repeat HAL_OK 4).
        change (hal_results [EvLoad]) with (@nil HAL_StatusTypeDef).
        change (hal_results (SetupClock_header sys))
          with (@nil HAL_StatusTypeDef).
        change (hal_results [EvHal c s; EvDie]) with [s].
        rewrite app_nil_r. cbn [app].
        rewrite app_assoc, <- repeat_app.
        intros Eq. exfalso. exact (repeat_snoc_other _ _ _ 8 Hs Eq).
      * split; [|split].
        -- rewrite !app_assoc. apply last_snoc2.
        -- eexists; exists c, s. split; [|exact Hs].
           rewrite !app_assoc. reflexivity.
        -- intros m Hin. apply in_app_or in Hin as [Hin|Hin].
           ++ apply in_app_or in Hin as [Hin|Hin].
              ** vm_compute in Hin. intuition discriminate.
              ** simpl in Hin. intuition discriminate.
           ++ revert Hin. apply halted_setup_no_call.
Qed.

Lemma main_boot_reaches_loop_witness :
  setup_requests
    (log (fst (main_boot hal_accepts (fun _ => None)
                 (World_init {| can_hz := 0 |}))))
  = [170000000; system_clock_hz (persisted (fun _ => None))].
Proof.
  apply (proj1 (proj2 (main_boot_reaches_loop hal_accepts (fun _ => None)
                         {| can_hz := 0 |}))).
  reflexivity.
Defined.
